(** * check_submission.py: marker extraction, segment comparison and merge

    A shallow embedding of [src/check_submission.py] together with the
    properties of its marker extractor, tag comparator, segment extractor,
    segment comparator, merge and verdict assembly.

    Conventions of the embedding:
    - a Python [str] is a [string]; a character is a code point below 256;
    - a document is the list of lines [text.splitlines()] returns;
    - line numbers are naturals: [extract_tags] numbers the lines from 1
      ([enumerate(..., start=1)]).  Where the code subtracts 1 from a line
      number that a caller may give as 0, the model follows Python: the
      test [prev_end < begin - 1] is false, and a stop or an index of -1
      counts from the end of the list ([Py.slice_to_pred], [getitem_pred]);
    - a [dict] is an association list in insertion order (Python keeps that
      order, and [compare_tags] and the merge iterate in it);
    - a raised exception is the [Raise] result; [ValueError] carries the data
      its f-string message is made of, and [message] renders the text. *)

From Stdlib Require Import String Ascii List Arith Bool Lia.
From Stdlib Require Import DecimalString Sorted Permutation.
Import ListNotations.

Open Scope list_scope.
Open Scope string_scope.

(** ** Python primitives *)

Module Py.

(** The newline character, as in the Python literal with backslash n. *)
Definition LF : ascii := "010"%char.
Definition CR : ascii := "013"%char.
Definition nl : string := String LF "".

(** [str(n)] for a non-negative [int]. *)
Definition str_of_int (n : nat) : string :=
  NilEmpty.string_of_uint (Nat.to_uint n).

(** The class [\s] of [re] on [str] patterns, restricted to code points
    below 256: TAB, LF, VT, FF, CR, FS, GS, RS, US, SPACE, NEL, NBSP. *)
Definition is_space (c : ascii) : bool :=
  let n := nat_of_ascii c in
  (((9 <=? n) && (n <=? 13)) || ((28 <=? n) && (n <=? 32))
   || (n =? 133) || (n =? 160))%nat.

(** The line boundaries of [str.splitlines], below code point 256:
    LF, VT, FF, CR, FS, GS, RS, NEL (CR LF counts as one boundary). *)
Definition is_linebreak (c : ascii) : bool :=
  let n := nat_of_ascii c in
  (((10 <=? n) && (n <=? 13)) || ((28 <=? n) && (n <=? 30))
   || (n =? 133))%nat.

(** [text.splitlines()]: [cur] is the line being read, [after_cr] tells that
    the previous character was a CR, so that a LF right after it belongs to
    the same boundary.  No line is produced for an empty tail. *)
Fixpoint splitlines_from (after_cr : bool) (cur : string) (s : string)
  : list string :=
  match s with
  | EmptyString => if cur =? "" then [] else [cur]
  | String c r =>
      if after_cr && Ascii.eqb c LF then splitlines_from false cur r
      else if is_linebreak c
           then cur :: splitlines_from (Ascii.eqb c CR) "" r
           else splitlines_from false (cur ++ String c "") r
  end.

Definition splitlines (text : string) : list string :=
  splitlines_from false "" text.

(** ["\n".join(lines)] *)
Definition join (lines : list string) : string := String.concat nl lines.

(** [s.split("\n")]: the inverse of [join] on lines without a newline. *)
Fixpoint split_from (cur : string) (s : string) : list string :=
  match s with
  | EmptyString => [cur]
  | String c r =>
      if Ascii.eqb c LF then cur :: split_from "" r
      else split_from (cur ++ String c "") r
  end.

Definition split_nl (s : string) : list string := split_from "" s.

(** [l[lo:hi]] and [l[lo:]] for non-negative bounds: Python clamps both
    to the length of the list. *)
Definition slice {A} (l : list A) (lo hi : nat) : list A :=
  firstn (hi - lo) (skipn lo l).

Definition slice_from {A} (l : list A) (lo : nat) : list A := skipn lo l.

(** [l[lo:end - 1]] for [0 <= lo] and [0 <= end]: with [end = 0] the stop
    is -1, the position before the last element. *)
Definition slice_to_pred {A} (l : list A) (lo end_line : nat) : list A :=
  match end_line with
  | 0 => slice l lo (length l - 1)
  | S stop => slice l lo stop
  end.

(** [s.endswith(suffix)] *)
Definition endswith (s suffix : string) : bool :=
  (String.length suffix <=? String.length s)%nat
  && (substring (String.length s - String.length suffix)
                (String.length suffix) s =? suffix).

(** Tuples [(int, int)] compare lexicographically. *)
Definition tuple_le (p q : nat * nat) : bool :=
  ((fst p <? fst q) || ((fst p =? fst q) && (snd p <=? snd q)))%nat.

(** [sorted(l, key=key)] on keys that are pairs of ints.  Python's sort is
    stable: an element goes before the first element of the sorted tail
    whose key is not smaller. *)
Section Sorted.
Context {A : Type} (key : A -> nat * nat).

Fixpoint insert_sorted (x : A) (l : list A) : list A :=
  match l with
  | [] => [x]
  | y :: r => if tuple_le (key x) (key y) then x :: y :: r
              else y :: insert_sorted x r
  end.

Fixpoint sorted (l : list A) : list A :=
  match l with
  | [] => []
  | x :: r => insert_sorted x (sorted r)
  end.
End Sorted.

End Py.

(** ** Exceptions and results *)

Inductive marker_type : Type := BEGIN | END.

(** One constructor for each [raise ValueError(...)] of the source. *)
Inductive value_error : Type :=
| DuplicateBegin (tag : string) (line_num : nat)
| UnmatchedEnd (tag : string) (line_num : nat)
| DuplicateEnd (tag : string) (line_num : nat)
| UnmatchedBegin (tag : string) (begin_line : nat)
| OverlappingTags (current_tag : string) (current_begin current_end : nat)
                  (next_tag : string) (next_begin next_end : nat)
| MissingTags (missing_tags : list string)
| ExtraTags (extra_tags : list string)
| OrderMismatch (i : nat) (expected_tag actual_tag : string)
| TagMissingInSubmission (tag : string)
| ContentModified (assignment_segment submission_segment : string)
| AssignmentSuffix
| SubmissionName (expected_submission_file : string).

Inductive exception : Type :=
| ValueError (e : value_error)
| IndexError
| OSError.

Inductive result (A : Type) : Type :=
| Return (a : A)
| Raise (x : exception).

Arguments Return {A} a.
Arguments Raise {A} x.

Definition bind {A B} (m : result A) (k : A -> result B) : result B :=
  match m with
  | Return a => k a
  | Raise x => Raise x
  end.

Notation "x <- m ;; k" := (bind m (fun x => k))
  (at level 61, m at next level, right associativity).
Notation "m ;;; k" := (bind m (fun _ => k))
  (at level 61, right associativity).

Definition raise_value {A} (e : value_error) : result A :=
  Raise (ValueError e).

(** The text of each [ValueError], as the f-strings build it. *)
Definition message (e : value_error) : string :=
  match e with
  | DuplicateBegin tag n =>
      "Duplicate BEGIN-TODO tag '" ++ tag ++ "' found at line "
        ++ Py.str_of_int n ++ "."
  | UnmatchedEnd tag n =>
      "END-TODO tag '" ++ tag ++ "' at line " ++ Py.str_of_int n
        ++ " has no matching BEGIN-TODO."
  | DuplicateEnd tag n =>
      "Duplicate END-TODO tag '" ++ tag ++ "' found at line "
        ++ Py.str_of_int n ++ "."
  | UnmatchedBegin tag n =>
      "BEGIN-TODO tag '" ++ tag ++ "' at line " ++ Py.str_of_int n
        ++ " has no matching END-TODO."
  | OverlappingTags ct cb ce nt nb ne =>
      "Overlapping tags detected: '" ++ ct ++ "' (lines "
        ++ Py.str_of_int cb ++ "-" ++ Py.str_of_int ce ++ ") and '" ++ nt
        ++ "' (lines " ++ Py.str_of_int nb ++ "-" ++ Py.str_of_int ne ++ ")."
  | MissingTags l =>
      "The following tags are missing in the submission: "
        ++ String.concat ", " l
  | ExtraTags l =>
      "The following extra tags are present in the submission: "
        ++ String.concat ", " l
  | OrderMismatch i expected actual =>
      "Tag mismatch at position " ++ Py.str_of_int (i + 1) ++ ": expected '"
        ++ expected ++ "' but found '" ++ actual ++ "'."
  | TagMissingInSubmission tag =>
      "Tag '" ++ tag ++ "' found in assignment but not in submission."
  | ContentModified a s =>
      "The original text has been modified:" ++ Py.nl ++ a ++ Py.nl
        ++ "-------------------" ++ Py.nl ++ s
  | AssignmentSuffix => "The assignment file must end with '-assignment.dfy'."
  | SubmissionName expected =>
      "The submission file must be named '" ++ expected ++ "'."
  end.

(** ** The marker pattern

    [tag_pattern = re.compile(r"//\s*(BEGIN|END)-TODO\((.*?)\)")] *)

Module Re.

(** [s] starts with [p]: the rest of [s]. *)
Fixpoint strip_prefix (p s : string) : option string :=
  match p, s with
  | EmptyString, _ => Some s
  | String a p', String b s' =>
      if Ascii.eqb a b then strip_prefix p' s' else None
  | String _ _, EmptyString => None
  end.

(** [\s*], greedy.  What follows in the pattern starts with a letter, so
    giving back a whitespace character never helps. *)
Fixpoint skip_spaces (s : string) : string :=
  match s with
  | String c r => if Py.is_space c then skip_spaces r else s
  | EmptyString => s
  end.

(** [(.*?)\)]: the lazy group stops at the first closing parenthesis; the
    dot does not match a newline.  Returns the group. *)
Fixpoint lazy_until_rparen (s : string) : option string :=
  match s with
  | EmptyString => None
  | String c r =>
      if Ascii.eqb c ")" then Some ""
      else if Ascii.eqb c Py.LF then None
      else option_map (String c) (lazy_until_rparen r)
  end.

(** [-TODO\((.*?)\)] after the keyword. *)
Definition match_todo (ty : marker_type) (s : string)
  : option (marker_type * string) :=
  match strip_prefix "-TODO(" s with
  | Some r => option_map (pair ty) (lazy_until_rparen r)
  | None => None
  end.

(** The whole pattern, anchored at the start of [s].  The two branches of
    [(BEGIN|END)] start with different letters, so at most one applies. *)
Definition match_here (s : string) : option (marker_type * string) :=
  match strip_prefix "//" s with
  | None => None
  | Some r =>
      let r := skip_spaces r in
      match strip_prefix "BEGIN" r with
      | Some r' => match_todo BEGIN r'
      | None =>
          match strip_prefix "END" r with
          | Some r' => match_todo END r'
          | None => None
          end
      end
  end.

(** [tag_pattern.search(line)]: the leftmost position where the pattern
    matches; the result is [match.groups()]. *)
Fixpoint search (s : string) : option (marker_type * string) :=
  match match_here s with
  | Some m => Some m
  | None =>
      match s with
      | EmptyString => None
      | String _ r => search r
      end
  end.

(** [re.sub(r"\s+", "", s)]: every run of whitespace is replaced by the
    empty string, one character of the run at a time here. *)
Fixpoint sub_spaces (s : string) : string :=
  match s with
  | EmptyString => ""
  | String c r => if Py.is_space c then sub_spaces r
                  else String c (sub_spaces r)
  end.

End Re.

(** ** Dictionaries

    A [dict] keyed by tags, in insertion order. *)

Section Dict.
Context {V : Type}.

(** [d.get(k)], which also decides [k in d]. *)
Fixpoint dict_get (d : list (string * V)) (k : string) : option V :=
  match d with
  | [] => None
  | (k', v) :: r => if k' =? k then Some v else dict_get r k
  end.

Definition dict_mem (d : list (string * V)) (k : string) : bool :=
  match dict_get d k with Some _ => true | None => false end.

(** [d[k] = v]: an existing key keeps its place, a new one goes last. *)
Fixpoint dict_set (d : list (string * V)) (k : string) (v : V)
  : list (string * V) :=
  match d with
  | [] => [(k, v)]
  | (k', v') :: r =>
      if k' =? k then (k, v) :: r else (k', v') :: dict_set r k v
  end.
End Dict.

(** [x in l] on a list of strings. *)
Definition list_mem (x : string) (l : list string) : bool :=
  existsb (String.eqb x) l.

(** While the lines are scanned a value is [(begin, None)] or
    [(begin, end)]; the map [extract_tags] returns has both numbers. *)
Definition open_tags : Type := list (string * (nat * option nat)).
Definition TagMap : Type := list (string * (nat * nat)).

(** ** extract_tags *)

(** The body of [if match:] in the scanning loop: what a marker of kind
    [marker_type] with tag [tag] at line [line_num] does to [tags]. *)
Definition record_marker (tags : open_tags) (line_num : nat)
  (marker_type : marker_type) (tag : string) : result open_tags :=
  match marker_type with
  | BEGIN =>
      if dict_mem tags tag then raise_value (DuplicateBegin tag line_num)
      else Return (dict_set tags tag (line_num, None))
  | END =>
      match dict_get tags tag with
      | None => raise_value (UnmatchedEnd tag line_num)
      | Some (_, Some _) => raise_value (DuplicateEnd tag line_num)
      | Some (begin_line, None) =>
          Return (dict_set tags tag (begin_line, Some line_num))
      end
  end.

(** The body of the scanning loop for one line. *)
Definition scan_line (tags : open_tags) (line_num : nat) (line : string)
  : result open_tags :=
  match Re.search line with
  | None => Return tags
  | Some (marker_type, tag) => record_marker tags line_num marker_type tag
  end.

(** [for line_num, line in enumerate(lines, start=line_num)] *)
Fixpoint scan_lines (tags : open_tags) (line_num : nat) (lines : list string)
  : result open_tags :=
  match lines with
  | [] => Return tags
  | line :: rest =>
      tags' <- scan_line tags line_num line ;;
      scan_lines tags' (S line_num) rest
  end.

(** The loop that looks for a tag with a missing END marker: the first one
    in iteration order raises. *)
Fixpoint check_closed (tags : open_tags) : result TagMap :=
  match tags with
  | [] => Return []
  | (tag, (begin_line, None)) :: _ =>
      raise_value (UnmatchedBegin tag begin_line)
  | (tag, (begin_line, Some end_line)) :: rest =>
      rest' <- check_closed rest ;;
      Return ((tag, (begin_line, end_line)) :: rest')
  end.

(** The loop over [range(len(sorted_tags) - 1)]: adjacent entries. *)
Fixpoint check_overlap (sorted_tags : TagMap) : result unit :=
  match sorted_tags with
  | (current_tag, (current_begin, current_end)) :: next =>
      match next with
      | (next_tag, (next_begin, next_end)) :: _ =>
          if (next_begin <? current_end)%nat
          then raise_value (OverlappingTags current_tag current_begin
                              current_end next_tag next_begin next_end)
          else check_overlap next
      | [] => Return tt
      end
  | [] => Return tt
  end.

Definition extract_tags (text : string) : result TagMap :=
  tags <- scan_lines [] 1 (Py.splitlines text) ;;
  tags <- check_closed tags ;;
  check_overlap (Py.sorted snd tags) ;;;
  Return tags.

(** ** compare_tags *)

(** [for i, (expected_tag, actual_tag) in enumerate(zip(...), start=i)] *)
Fixpoint check_order (i : nat) (pairs : list (string * string))
  : result unit :=
  match pairs with
  | [] => Return tt
  | (expected_tag, actual_tag) :: rest =>
      if expected_tag =? actual_tag then check_order (S i) rest
      else raise_value (OrderMismatch i expected_tag actual_tag)
  end.

Definition compare_tags (assignment_tags submission_tags : TagMap)
  : result unit :=
  let assignment_tag_order := map fst assignment_tags in
  let submission_tag_order := map fst submission_tags in
  let missing_tags :=
    filter (fun tag => negb (list_mem tag submission_tag_order))
           assignment_tag_order in
  match missing_tags with
  | _ :: _ => raise_value (MissingTags missing_tags)
  | [] =>
      let extra_tags :=
        filter (fun tag => negb (list_mem tag assignment_tag_order))
               submission_tag_order in
      match extra_tags with
      | _ :: _ => raise_value (ExtraTags extra_tags)
      | [] => check_order 0 (combine assignment_tag_order submission_tag_order)
      end
  end.

(** ** extract_original_segments *)

(** The loop over the sorted spans, then the trailing segment. *)
Fixpoint segments_loop (lines : list string) (prev_end : nat)
  (sorted_tags : list (nat * nat)) : list string :=
  match sorted_tags with
  | [] =>
      if (prev_end <? length lines)%nat
      then [Py.join (Py.slice_from lines prev_end)] else []
  | (begin_line, end_line) :: rest =>
      ((if (prev_end <? begin_line - 1)%nat
        then [Py.join (Py.slice lines prev_end (begin_line - 1))] else [])
       ++ segments_loop lines end_line rest)%list
  end.

Definition extract_original_segments (text : string) (tags : TagMap)
  : list string :=
  segments_loop (Py.splitlines text) 0 (Py.sorted id (map snd tags)).

(** ** insert_submission_tags *)

(** [l[i]] for [0 <= i]; out of range raises [IndexError]. *)
Definition getitem (l : list string) (i : nat) : result string :=
  match nth_error l i with
  | Some x => Return x
  | None => Raise IndexError
  end.

(** [l[end - 1]] for [0 <= end]: with [end = 0] the index is -1, the last
    element, and [IndexError] on an empty list. *)
Definition getitem_pred (l : list string) (end_line : nat) : result string :=
  match end_line with
  | 0 => getitem l (length l - 1)
  | S i => getitem l i
  end.

(** [for tag in assignment_tags], with [result_lines] and [prev_end] as
    the loop state. *)
Fixpoint insert_loop (assignment_lines submission_lines : list string)
  (submission_tags : TagMap) (result_lines : list string) (prev_end : nat)
  (assignment_tags : TagMap) : result (list string) :=
  match assignment_tags with
  | [] => Return (result_lines ++ Py.slice_from assignment_lines prev_end)%list
  | (tag, (assignment_begin, assignment_end)) :: rest =>
      match dict_get submission_tags tag with
      | None => raise_value (TagMissingInSubmission tag)
      | Some (submission_begin, submission_end) =>
          let result_lines :=
            (result_lines
               ++ Py.slice assignment_lines prev_end assignment_begin)%list in
          begin_marker <- getitem assignment_lines assignment_begin ;;
          let result_lines := (result_lines ++ [begin_marker])%list in
          let result_lines :=
            (result_lines
               ++ Py.slice_to_pred submission_lines (submission_begin + 1)
                                   submission_end)%list in
          end_marker <- getitem_pred assignment_lines assignment_end ;;
          let result_lines := (result_lines ++ [end_marker])%list in
          insert_loop assignment_lines submission_lines submission_tags
                      result_lines assignment_end rest
      end
  end.

Definition insert_submission_tags (assignment_text submission_text : string)
  (assignment_tags submission_tags : TagMap) : result string :=
  result_lines <- insert_loop (Py.splitlines assignment_text)
                    (Py.splitlines submission_text) submission_tags
                    [] 0 assignment_tags ;;
  Return (Py.join result_lines).

(** ** compare_segments *)

(** The loop over [zip(assignment_segments, submission_segments)]. *)
Fixpoint compare_pairs (pairs : list (string * string)) : result unit :=
  match pairs with
  | [] => Return tt
  | (assignment_segment, submission_segment) :: rest =>
      if Re.sub_spaces assignment_segment =? Re.sub_spaces submission_segment
      then compare_pairs rest
      else raise_value (ContentModified assignment_segment submission_segment)
  end.

Definition compare_segments (assignment_segments submission_segments
  : list string) : result unit :=
  compare_pairs (combine assignment_segments submission_segments).

(** ** check_filenames and check_submission *)

(** [re.sub(r"-assignment.dfy$", "-submission.dfy", assignment_file)] under
    the guard that [assignment_file] ends with "-assignment.dfy": the only
    match is that suffix, 15 characters long.  The result of the function is
    what it printed: the warning of the lenient mode, or nothing. *)
Definition check_filenames (no_filename_check : bool)
  (assignment_file submission_file : string) : result (list string) :=
  if negb (Py.endswith assignment_file "-assignment.dfy")
  then raise_value AssignmentSuffix
  else
    let expected_submission_file :=
      substring 0 (String.length assignment_file - 15) assignment_file
        ++ "-submission.dfy" in
    if submission_file =? expected_submission_file then Return []
    else if no_filename_check
         then Return ["WARNING: The submission file must be named '"
                        ++ expected_submission_file ++ "'."]
         else raise_value (SubmissionName expected_submission_file).

Definition ACCEPTED : string := "The submission is ACCEPTED.".

Definition REJECTED (e : value_error) : string :=
  "The submission is REJECTED." ++ Py.nl ++ message e.

(** [try: body / except ValueError as e: return REJECTED] followed by the
    rest of the function: another exception goes through. *)
Definition try_stage {A} (body : result A) (rest : A -> result string)
  : result string :=
  match body with
  | Return a => rest a
  | Raise (ValueError e) => Return (REJECTED e)
  | Raise x => Raise x
  end.

(** [read_text] stands for [Path(file).read_text()], which raises when the
    file cannot be read; [no_filename_check] is [Settings.no_filename_check]. *)
Definition check_submission (no_filename_check : bool)
  (read_text : string -> result string)
  (assignment_file submission_file : string) : result string :=
  try_stage (check_filenames no_filename_check assignment_file submission_file)
    (fun _ =>
  assignment_text <- read_text assignment_file ;;
  submission_text <- read_text submission_file ;;
  try_stage (assignment_tags <- extract_tags assignment_text ;;
             submission_tags <- extract_tags submission_text ;;
             Return (assignment_tags, submission_tags))
    (fun '(assignment_tags, submission_tags) =>
  try_stage (compare_tags assignment_tags submission_tags)
    (fun _ =>
  let assignment_segments :=
    extract_original_segments assignment_text assignment_tags in
  let submission_segments :=
    extract_original_segments submission_text submission_tags in
  try_stage (compare_segments assignment_segments submission_segments)
    (fun _ => Return ACCEPTED)))).

(** ** Running the code on small documents *)

Definition unlines (l : list string) : string := String.concat Py.nl l.

Definition tpl : string :=
  unlines ["header"; "// BEGIN-TODO(a)"; "TODO"; "// END-TODO(a)"; "footer"].

(** A template with one span and a submission that fills it with two
    lines. *)
Definition merge_template : string :=
  unlines ["// BEGIN-TODO(a)"; "TODO"; "// END-TODO(a)"].

Definition merge_submission : string :=
  unlines ["// BEGIN-TODO(a)"; "x"; "y"; "// END-TODO(a)"].

(** A submission for [tpl]: the payload is filled in, the header is kept and
    the footer is indented. *)
Definition tpl_submission : string :=
  unlines ["header"; "// BEGIN-TODO(a)"; "x := 1;"; "y := 2;";
           "// END-TODO(a)"; "  footer"].

(** A file system with [tpl] and that submission. *)
Definition tpl_files (file : string) : result string :=
  if file =? "hw2-assignment.dfy" then Return tpl
  else if file =? "hw2-submission.dfy" then Return tpl_submission
  else Raise OSError.

(** A file system without any file. *)
Definition no_files (file : string) : result string := Raise OSError.

(** A file system with the files of a homework. *)
Definition homework_files (file : string) : result string :=
  if file =? "hw1-assignment.dfy" then Return merge_template
  else if file =? "hw1-submission.dfy" then Return merge_submission
  else if file =? "old-submission.dfy" then Return merge_submission
  else Raise OSError.

(** * Vocabulary of the properties *)

(** Two segments agree when their streams without whitespace agree. *)
Definition same_stream (p : string * string) : Prop :=
  Re.sub_spaces (fst p) = Re.sub_spaces (snd p).

(** The characters of a string that are not whitespace. *)
Definition non_space_chars (s : string) : list ascii :=
  filter (fun c => negb (Py.is_space c)) (list_ascii_of_string s).

(** Every character of [s] satisfies [p]. *)
Fixpoint string_forall (p : ascii -> bool) (s : string) : bool :=
  match s with
  | EmptyString => true
  | String c r => p c && string_forall p r
  end.

Definition not_rparen (c : ascii) : bool := negb (Ascii.eqb c ")").
Definition not_newline (c : ascii) : bool := negb (Ascii.eqb c Py.LF).
Definition not_linebreak (c : ascii) : bool := negb (Py.is_linebreak c).

Definition keyword (ty : marker_type) : string :=
  match ty with BEGIN => "BEGIN" | END => "END" end.

(** The token the pattern of the source looks for: the comment marker [//],
    any whitespace, the keyword, [-TODO(], a tag without closing parenthesis,
    and the closing parenthesis, anywhere in the line. *)
Definition comment_marker_form (line : string) (ty : marker_type)
  (tag : string) : Prop :=
  exists pre ws post,
    line = pre ++ "//" ++ ws ++ keyword ty ++ "-TODO(" ++ tag ++ ")" ++ post
    /\ string_forall Py.is_space ws = true
    /\ string_forall not_rparen tag = true.

(** The token as the specification words it: the comment marker is
    optional. *)
Definition optional_comment_form (line : string) (ty : marker_type)
  (tag : string) : Prop :=
  exists pre comment post,
    line = pre ++ comment ++ keyword ty ++ "-TODO(" ++ tag ++ ")" ++ post
    /\ (comment = ""
        \/ exists ws, comment = "//" ++ ws
                      /\ string_forall Py.is_space ws = true)
    /\ string_forall not_rparen tag = true.

(** A line [extract_tags] treats as a marker. *)
Definition is_marker (line : string) : bool :=
  match Re.search line with Some _ => true | None => false end.

(** A marker of a document: its line number (from 1), kind and tag. *)
Definition event : Type := nat * (marker_type * string).

(** The markers of the lines, numbered from [line_num], in line order. *)
Fixpoint markers_from (line_num : nat) (lines : list string) : list event :=
  match lines with
  | [] => []
  | line :: rest =>
      match Re.search line with
      | Some m => (line_num, m) :: markers_from (S line_num) rest
      | None => markers_from (S line_num) rest
      end
  end.

Definition markers (text : string) : list event :=
  markers_from 1 (Py.splitlines text).

(** The marker on line [n] of the document, if that line is one. *)
Definition marker_at (text : string) (n : nat) : option (marker_type * string) :=
  match n with
  | 0 => None
  | S i => match nth_error (Py.splitlines text) i with
           | Some line => Re.search line
           | None => None
           end
  end.

(** The tags and lines of the BEGIN markers, in line order. *)
Fixpoint begins (evs : list event) : list (string * nat) :=
  match evs with
  | [] => []
  | (n, (BEGIN, t)) :: r => (t, n) :: begins r
  | (_, (END, _)) :: r => begins r
  end.

(** The tag and BEGIN line of an entry of a map. *)
Definition begin_of {E} (entry : string * (nat * E)) : string * nat :=
  (fst entry, fst (snd entry)).

(** What the scanning loop maintains: [tags] after the markers [evs], all
    on lines below [bound]. *)
Record scan_inv (bound : nat) (evs : list event) (tags : open_tags) : Prop :=
  { inv_begins : map begin_of tags = begins evs;
    inv_nodup : NoDup (map fst tags);
    inv_ends : forall n t,
        In (n, (END, t)) evs <-> exists b, dict_get tags t = Some (b, Some n);
    inv_bound : forall t b oe,
        dict_get tags t = Some (b, oe) ->
        b < bound /\ forall e, oe = Some e -> b < e /\ e < bound }.

(** Spans in line order that do not overlap: each ends no later than the
    spans after it begin. *)
Definition disjoint_spans (spans : list (nat * nat)) : Prop :=
  StronglySorted (fun x y => snd x <= fst y) spans.

(** What holds of the map [extract_tags] returns for the markers [evs]. *)
Record well_formed (evs : list event) (tags : TagMap) : Prop :=
  { wf_begins : map begin_of tags = begins evs;
    wf_nodup : NoDup (map fst tags);
    wf_ends : forall n t,
        In (n, (END, t)) evs <-> exists b, dict_get tags t = Some (b, n);
    wf_lt : forall t b e, In (t, (b, e)) tags -> b < e;
    wf_disjoint : disjoint_spans (Py.sorted id (map snd tags)) }.

(** An entry of the returned map as the scanning loop holds it. *)
Definition opened (entry : string * (nat * nat))
  : string * (nat * option nat) :=
  (fst entry, (fst (snd entry), Some (snd (snd entry)))).

(** Malformed documents, in terms of their marker lines.  A BEGIN whose tag
    has no END anywhere; an END with no BEGIN of its tag on an earlier line;
    two markers of the same kind and tag on different lines; two different
    spans, the first not after the second in the order of
    [(begin_line, end_line)], the first ending after the second begins. *)
Definition unmatched_begin (text : string) : Prop :=
  exists b t, marker_at text b = Some (BEGIN, t)
              /\ forall e, marker_at text e <> Some (END, t).

Definition unmatched_end (text : string) : Prop :=
  exists e t, marker_at text e = Some (END, t)
              /\ forall b, b < e -> marker_at text b <> Some (BEGIN, t).

Definition duplicated_tag (text : string) : Prop :=
  exists ty t n1 n2, n1 <> n2 /\ marker_at text n1 = Some (ty, t)
                     /\ marker_at text n2 = Some (ty, t).

Definition is_span (text : string) (t : string) (b e : nat) : Prop :=
  marker_at text b = Some (BEGIN, t) /\ marker_at text e = Some (END, t).

Definition overlapping_spans (text : string) : Prop :=
  exists t1 b1 e1 t2 b2 e2,
    is_span text t1 b1 e1 /\ is_span text t2 b2 e2
    /\ (t1, (b1, e1)) <> (t2, (b2, e2))
    /\ Py.tuple_le (b1, e1) (b2, e2) = true
    /\ b2 < e1.

(** The complement of the spans: the lines before the first span, between
    two consecutive spans and after the last one, empty ranges included. *)
Fixpoint gaps_loop (lines : list string) (prev_end : nat)
  (spans : list (nat * nat)) : list (list string) :=
  match spans with
  | [] => [Py.slice_from lines prev_end]
  | (b, e) :: rest => Py.slice lines prev_end (b - 1) :: gaps_loop lines e rest
  end.

Definition spans_of (tags : TagMap) : list (nat * nat) :=
  Py.sorted id (map snd tags).

Definition gaps (text : string) (tags : TagMap) : list (list string) :=
  gaps_loop (Py.splitlines text) 0 (spans_of tags).

(** The lines of a span, from its BEGIN line through its END line. *)
Definition span_lines (lines : list string) (span : nat * nat)
  : list string :=
  Py.slice lines (fst span - 1) (snd span).

(** Gaps and spans put back in line order: a gap, a span, a gap, ... *)
Fixpoint weave (gs spans : list (list string)) : list string :=
  match gs with
  | [] => []
  | g :: gs' =>
      match spans with
      | [] => g
      | s :: spans' => (g ++ s ++ weave gs' spans')%list
      end
  end.

Definition nonempty {A} (l : list A) : bool :=
  match l with [] => false | _ :: _ => true end.

(** Spans in line order after line [prev]: each begins after the one before
    ends, ends after it begins, and the last ends within [len] lines. *)
Fixpoint chained (len prev : nat) (spans : list (nat * nat)) : Prop :=
  match spans with
  | [] => prev <= len
  | (b, e) :: rest => prev < b /\ b < e /\ chained len e rest
  end.

(** Two lines that carry the same marker, or are the same line when they
    carry none: they differ at most in what surrounds a marker token. *)
Definition same_off_marker (l l' : string) : Prop :=
  Re.search l = Re.search l' /\ (Re.search l = None -> l = l').

(** What the scanning loop and the loop over unclosed tags establish, before
    the overlap check: [well_formed] without the disjointness of the spans. *)
Record paired (evs : list event) (tags : TagMap) : Prop :=
  { pr_begins : map begin_of tags = begins evs;
    pr_nodup : NoDup (map fst tags);
    pr_ends : forall n t,
        In (n, (END, t)) evs <-> exists b, dict_get tags t = Some (b, n);
    pr_lt : forall t b e, In (t, (b, e)) tags -> b < e }.

(** A document with one of the four defects of its markers. *)
Definition malformed (text : string) : Prop :=
  unmatched_begin text \/ unmatched_end text
  \/ duplicated_tag text \/ overlapping_spans text.

(** Entries in the order of their BEGIN lines. *)
Definition in_line_order (tags : TagMap) : Prop :=
  StronglySorted (fun x y => fst (snd x) < fst (snd y)) tags.

(** What the merge writes for each span: the BEGIN line and the END line of
    the template around the lines [mid] it puts between them. *)
Fixpoint frame_spans (lines : list string) (spans : list (nat * nat))
  (mids : list (list string)) : list (list string) :=
  match spans, mids with
  | (b, e) :: spans', mid :: mids' =>
      (Py.slice lines (b - 1) b ++ mid ++ Py.slice lines (e - 1) e)%list
        :: frame_spans lines spans' mids'
  | _, _ => []
  end.

(** Two documents with the same number of lines that differ only on lines
    strictly between the BEGIN and the END line of a span of [tags], lines
    that are markers in neither document. *)
Definition same_outside_payload (tags : TagMap) (lines lines' : list string)
  : Prop :=
  length lines = length lines'
  /\ forall j l l',
      nth_error lines j = Some l -> nth_error lines' j = Some l' ->
      l = l'
      \/ (Re.search l = None /\ Re.search l' = None
          /\ exists t b e, In (t, (b, e)) tags /\ b < S j /\ S j < e).

(** * Properties *)

(** ** Strings and lines *)

Section Strings.

Example splitlines_ex :
  Py.splitlines ("a" ++ Py.nl ++ Py.nl ++ "b" ++ String Py.CR Py.nl)
  = ["a"; ""; "b"].
Proof. reflexivity. Qed.

Lemma append_assoc (a b c : string) : (a ++ b) ++ c = a ++ (b ++ c).
Proof. induction a as [|x a IH]; simpl; [reflexivity | now rewrite IH]. Qed.

Lemma append_nil_r (a : string) : a ++ "" = a.
Proof. induction a as [|x a IH]; simpl; [reflexivity | now rewrite IH]. Qed.

Lemma string_forall_app p (a b : string) :
  string_forall p (a ++ b) = string_forall p a && string_forall p b.
Proof.
  induction a as [|x a IH]; simpl; [reflexivity|].
  now rewrite IH, andb_assoc.
Qed.

Lemma string_forall_impl (p q : ascii -> bool) (s : string) :
  (forall c, p c = true -> q c = true) ->
  string_forall p s = true -> string_forall q s = true.
Proof.
  intros Hpq. induction s as [|c r IH]; simpl; [reflexivity|].
  rewrite !andb_true_iff. intros [H1 H2]. auto.
Qed.

Lemma linebreak_newline (c : ascii) :
  not_linebreak c = true -> not_newline c = true.
Proof.
  unfold not_linebreak, not_newline.
  destruct (Ascii.eqb_spec c Py.LF) as [->|]; [discriminate | reflexivity].
Qed.

(** No line of [splitlines] holds a line boundary. *)
Lemma splitlines_from_no_break (s : string) :
  forall after_cr cur line,
    string_forall not_linebreak cur = true ->
    In line (Py.splitlines_from after_cr cur s) ->
    string_forall not_linebreak line = true.
Proof.
  induction s as [|c r IH]; intros after_cr cur line Hcur; simpl.
  - destruct (cur =? ""); simpl; [tauto|]. now intros [<-|[]].
  - destruct (after_cr && Ascii.eqb c Py.LF); [now apply IH|].
    destruct (Py.is_linebreak c) eqn:Hc.
    + intros [<-|H]; [assumption|]. now apply IH in H.
    + apply IH. rewrite string_forall_app, Hcur. simpl.
      unfold not_linebreak. now rewrite Hc.
Qed.

Lemma splitlines_no_break (text line : string) :
  In line (Py.splitlines text) -> string_forall not_linebreak line = true.
Proof. now apply splitlines_from_no_break. Qed.

Lemma splitlines_no_newline (text line : string) :
  In line (Py.splitlines text) -> string_forall not_newline line = true.
Proof.
  intros H. apply (string_forall_impl not_linebreak).
  - apply linebreak_newline.
  - now apply splitlines_no_break in H.
Qed.

End Strings.

(** ** The marker pattern *)

Section Pattern.

Lemma strip_prefix_spec (p s r : string) :
  Re.strip_prefix p s = Some r <-> s = p ++ r.
Proof.
  revert s; induction p as [|a p IH]; intros s; simpl.
  - split; [now intros [= ->] | now intros ->].
  - destruct s as [|b s]; [split; discriminate|].
    destruct (Ascii.eqb_spec a b) as [->|N].
    + rewrite IH. split; [now intros -> | now intros [= ->]].
    + split; [discriminate | intros [= E _]; now symmetry in E].
Qed.

Lemma strip_prefix_app (p r : string) : Re.strip_prefix p (p ++ r) = Some r.
Proof. now apply strip_prefix_spec. Qed.

Lemma skip_spaces_split (s : string) :
  exists ws, s = ws ++ Re.skip_spaces s
             /\ string_forall Py.is_space ws = true.
Proof.
  induction s as [|c r (ws & E & F)]; simpl.
  - now exists "".
  - destruct (Py.is_space c) eqn:Hc.
    + exists (String c ws). simpl. rewrite Hc, F. now rewrite <- E.
    + now exists "".
Qed.

Lemma skip_spaces_app (ws : string) c r :
  string_forall Py.is_space ws = true -> Py.is_space c = false ->
  Re.skip_spaces (ws ++ String c r) = String c r.
Proof.
  intros F Hc. induction ws as [|x ws IH]; simpl in *.
  - now rewrite Hc.
  - apply andb_true_iff in F as [-> F]. auto.
Qed.

Lemma lazy_until_rparen_spec (s tag : string) :
  Re.lazy_until_rparen s = Some tag
  <-> exists post, s = tag ++ ")" ++ post
                   /\ string_forall not_rparen tag = true
                   /\ string_forall not_newline tag = true.
Proof.
  revert tag; induction s as [|c r IH]; intros tag; simpl.
  - split; [discriminate|]. intros (post & E & _). destruct tag; discriminate.
  - destruct (Ascii.eqb_spec c ")") as [->|Np].
    + split.
      * intros [= <-]. now exists r.
      * intros (post & E & F & _). destruct tag as [|x tag]; [reflexivity|].
        simpl in E. inversion E; subst. simpl in F. discriminate.
    + destruct (Ascii.eqb_spec c Py.LF) as [->|Nn].
      * split; [discriminate|]. intros (post & E & _ & G).
        destruct tag as [|x tag]; simpl in E; [discriminate|].
        inversion E; subst. simpl in G. discriminate.
      * split.
        -- destruct (Re.lazy_until_rparen r) as [t|] eqn:Hr; [|discriminate].
           simpl. intros [= <-].
           destruct (proj1 (IH t) eq_refl) as (post & -> & F & G).
           exists post. simpl. unfold not_rparen at 1, not_newline at 1.
           destruct (Ascii.eqb_spec c ")"); [contradiction|].
           destruct (Ascii.eqb_spec c Py.LF); [contradiction|]. auto.
        -- intros (post & E & F & G). destruct tag as [|x tag]; simpl in E.
           ++ inversion E; subst. contradiction.
           ++ inversion E; subst. simpl in F, G.
              apply andb_true_iff in F as [_ F].
              apply andb_true_iff in G as [_ G].
              assert (H : Re.lazy_until_rparen (tag ++ ")" ++ post)
                          = Some tag).
              { apply IH. exists post. auto. }
              simpl in H. now rewrite H.
Qed.

Lemma match_todo_spec ty ty' (s tag : string) :
  Re.match_todo ty s = Some (ty', tag)
  <-> ty' = ty
      /\ exists post, s = "-TODO(" ++ tag ++ ")" ++ post
                      /\ string_forall not_rparen tag = true
                      /\ string_forall not_newline tag = true.
Proof.
  unfold Re.match_todo.
  destruct (Re.strip_prefix "-TODO(" s) as [r|] eqn:E.
  - apply strip_prefix_spec in E. subst s.
    destruct (Re.lazy_until_rparen r) as [t|] eqn:Hr; simpl.
    + apply lazy_until_rparen_spec in Hr as Hr'. split.
      * intros [= <- <-]. split; [reflexivity|].
        destruct Hr' as (post & -> & F & G). now exists post.
      * intros (-> & post & [= E] & F & G).
        assert (H : Re.lazy_until_rparen r = Some tag)
          by (apply lazy_until_rparen_spec; exists post; auto).
        rewrite Hr in H. now injection H as ->.
    + split; [discriminate|]. intros (-> & post & [= E] & F & G).
      assert (H : Re.lazy_until_rparen r = Some tag)
        by (apply lazy_until_rparen_spec; exists post; auto).
      rewrite Hr in H. discriminate.
  - split; [discriminate|]. intros (_ & post & -> & _).
    simpl in E. discriminate.
Qed.

Lemma match_here_sound (s : string) ty tag :
  Re.match_here s = Some (ty, tag) ->
  exists ws post,
    s = "//" ++ ws ++ keyword ty ++ "-TODO(" ++ tag ++ ")" ++ post
    /\ string_forall Py.is_space ws = true
    /\ string_forall not_rparen tag = true
    /\ string_forall not_newline tag = true.
Proof.
  unfold Re.match_here.
  destruct (Re.strip_prefix "//" s) as [r|] eqn:E; [|discriminate].
  apply strip_prefix_spec in E. subst s.
  destruct (skip_spaces_split r) as (ws & Er & Fws).
  destruct (Re.strip_prefix "BEGIN" (Re.skip_spaces r)) as [r'|] eqn:Eb.
  - apply strip_prefix_spec in Eb. intros H.
    apply match_todo_spec in H as (-> & post & -> & F & G).
    exists ws, post. rewrite Er at 1. rewrite Eb. auto.
  - destruct (Re.strip_prefix "END" (Re.skip_spaces r)) as [r'|] eqn:Ee;
      [|discriminate].
    apply strip_prefix_spec in Ee. intros H.
    apply match_todo_spec in H as (-> & post & -> & F & G).
    exists ws, post. rewrite Er at 1. rewrite Ee. auto.
Qed.

Lemma match_here_complete (ws tag post : string) ty :
  string_forall Py.is_space ws = true ->
  string_forall not_rparen tag = true ->
  string_forall not_newline tag = true ->
  Re.match_here ("//" ++ ws ++ keyword ty ++ "-TODO(" ++ tag ++ ")" ++ post)
  = Some (ty, tag).
Proof.
  intros Fws F G. unfold Re.match_here.
  rewrite strip_prefix_app.
  assert (T : Re.match_todo ty ("-TODO(" ++ tag ++ ")" ++ post)
              = Some (ty, tag)).
  { apply match_todo_spec. split; [reflexivity|]. exists post. auto. }
  destruct ty; simpl keyword.
  - change ("BEGIN" ++ "-TODO(" ++ tag ++ ")" ++ post)
      with (String "B" ("EGIN" ++ "-TODO(" ++ tag ++ ")" ++ post)).
    rewrite skip_spaces_app by (assumption || reflexivity).
    change (String "B" ("EGIN" ++ "-TODO(" ++ tag ++ ")" ++ post))
      with ("BEGIN" ++ ("-TODO(" ++ tag ++ ")" ++ post)).
    now rewrite strip_prefix_app.
  - change ("END" ++ "-TODO(" ++ tag ++ ")" ++ post)
      with (String "E" ("ND" ++ "-TODO(" ++ tag ++ ")" ++ post)).
    rewrite skip_spaces_app by (assumption || reflexivity).
    change (String "E" ("ND" ++ "-TODO(" ++ tag ++ ")" ++ post))
      with ("END" ++ ("-TODO(" ++ tag ++ ")" ++ post)).
    now rewrite strip_prefix_app.
Qed.

Lemma search_sound (s : string) ty tag :
  Re.search s = Some (ty, tag) ->
  comment_marker_form s ty tag /\ string_forall not_newline tag = true.
Proof.
  induction s as [|c r IH]; simpl.
  - discriminate.
  - destruct (Re.match_here (String c r)) as [m|] eqn:E.
    + intros [= ->].
      apply match_here_sound in E as (ws & post & E & F & G & N).
      split; [|assumption]. now exists "", ws, post.
    + intros H. apply IH in H as [(pre & ws & post & -> & F & G) N].
      split; [|assumption]. now exists (String c pre), ws, post.
Qed.

Lemma search_here (s : string) m :
  Re.match_here s = Some m -> Re.search s = Some m.
Proof. intros H. destruct s; unfold Re.search; now rewrite H. Qed.

Lemma search_cons c (r : string) :
  Re.search (String c r)
  = match Re.match_here (String c r) with
    | Some m => Some m
    | None => Re.search r
    end.
Proof. reflexivity. Qed.

Lemma search_complete (s : string) ty tag :
  comment_marker_form s ty tag -> string_forall not_newline tag = true ->
  exists m, Re.search s = Some m.
Proof.
  intros (pre & ws & post & -> & F & G) N.
  pose proof (match_here_complete ws tag post ty F G N) as M.
  induction pre as [|c pre [m IH]].
  - exists (ty, tag). now apply search_here.
  - change (String c pre ++ "//" ++ ws ++ keyword ty ++ "-TODO(" ++ tag
              ++ ")" ++ post)
      with (String c (pre ++ "//" ++ ws ++ keyword ty ++ "-TODO(" ++ tag
              ++ ")" ++ post)).
    rewrite search_cons.
    destruct (Re.match_here (String c (pre ++ "//" ++ ws ++ keyword ty
               ++ "-TODO(" ++ tag ++ ")" ++ post))) as [m'|]; eauto.
Qed.

Lemma is_marker_iff (line : string) :
  string_forall not_newline line = true ->
  is_marker line = true <-> exists ty tag, comment_marker_form line ty tag.
Proof.
  intros NL. unfold is_marker. split.
  - destruct (Re.search line) as [[ty tag]|] eqn:E; [|discriminate].
    intros _. exists ty, tag. now apply search_sound in E.
  - intros (ty & tag & H).
    destruct (search_complete line ty tag H) as [m ->]; [|reflexivity].
    destruct H as (pre & ws & post & -> & _).
    rewrite !string_forall_app in NL.
    repeat (apply andb_true_iff in NL as [? NL]). assumption.
Qed.

(** C3, as the code has it: a line of a document is taken for a marker
    exactly when it contains, anywhere, the comment marker [//], then any
    whitespace, then [BEGIN-TODO(tag)] or [END-TODO(tag)] with a tag free of
    closing parentheses; the comment marker is required, and the groups of
    a match have that form. *)
Theorem marker_needs_comment_prefix (text line : string) :
  In line (Py.splitlines text) ->
  (is_marker line = true
   <-> exists ty tag, comment_marker_form line ty tag)
  /\ (forall ty tag,
         Re.search line = Some (ty, tag) -> comment_marker_form line ty tag).
Proof.
  intros Hin. split.
  - apply is_marker_iff. now apply splitlines_no_newline in Hin.
  - intros ty tag H. now apply search_sound in H.
Qed.

Lemma marker_needs_comment_prefix_witness :
  is_marker "x := 1; //  END-TODO(a b) rest" = true
  <-> exists ty tag,
      comment_marker_form "x := 1; //  END-TODO(a b) rest" ty tag.
Proof.
  refine (proj1 (marker_needs_comment_prefix
                   (unlines ["// BEGIN-TODO(a b)";
                             "x := 1; //  END-TODO(a b) rest"])
                   "x := 1; //  END-TODO(a b) rest" _)).
  simpl. right. left. reflexivity.
Defined.

(** C3 as worded fails: a line with [BEGIN-TODO(tag)] and no comment marker
    has the form the specification describes and is not a marker. *)
Lemma marker_without_comment_not_recognized :
  In "BEGIN-TODO(tag)" (Py.splitlines "BEGIN-TODO(tag)")
  /\ optional_comment_form "BEGIN-TODO(tag)" BEGIN "tag"
  /\ is_marker "BEGIN-TODO(tag)" = false.
Proof.
  split; [simpl; now left|]. split; [|reflexivity].
  exists "", "", "". repeat split. now left.
Qed.

End Pattern.

(** ** compare_segments *)

Section CompareSegments.

Lemma sub_spaces_filter (s : string) :
  list_ascii_of_string (Re.sub_spaces s) = non_space_chars s.
Proof.
  unfold non_space_chars.
  induction s as [|c r IH]; simpl; [reflexivity|].
  destruct (Py.is_space c); simpl; now rewrite IH.
Qed.

Lemma same_stream_filter (x y : string) :
  same_stream (x, y) <-> non_space_chars x = non_space_chars y.
Proof.
  unfold same_stream; simpl. rewrite <- !sub_spaces_filter. split.
  - now intros ->.
  - intros H. rewrite <- (string_of_list_ascii_of_string (Re.sub_spaces x)).
    rewrite H. apply string_of_list_ascii_of_string.
Qed.

Lemma compare_pairs_ok (pairs : list (string * string)) :
  compare_pairs pairs = Return tt <-> Forall same_stream pairs.
Proof.
  induction pairs as [|[x y] r IH]; simpl.
  - split; auto.
  - destruct (String.eqb_spec (Re.sub_spaces x) (Re.sub_spaces y)) as [E|N].
    + rewrite IH. split; [intros; constructor; auto | now inversion 1].
    + split; [discriminate | inversion 1; contradiction].
Qed.

Lemma compare_pairs_first (pre post : list (string * string)) x y :
  Forall same_stream pre -> ~ same_stream (x, y) ->
  compare_pairs (pre ++ (x, y) :: post)
  = raise_value (ContentModified x y).
Proof.
  induction 1 as [|[a b] pre Hab Hpre IH]; intros N; simpl.
  - destruct (String.eqb_spec (Re.sub_spaces x) (Re.sub_spaces y));
      [contradiction | reflexivity].
  - unfold same_stream in Hab; simpl in Hab. rewrite Hab, String.eqb_refl.
    now apply IH.
Qed.

Lemma compare_pairs_raises (pairs : list (string * string)) x :
  compare_pairs pairs = Raise x ->
  exists pre a b post,
    pairs = (pre ++ (a, b) :: post)%list /\ Forall same_stream pre
    /\ ~ same_stream (a, b) /\ x = ValueError (ContentModified a b).
Proof.
  induction pairs as [|[a b] r IH]; simpl; [discriminate|].
  destruct (String.eqb_spec (Re.sub_spaces a) (Re.sub_spaces b)) as [E|N].
  - intros H. destruct (IH H) as (pre & a' & b' & post & -> & F & D & ->).
    exists ((a, b) :: pre), a', b', post. repeat split; auto.
  - intros [= <-]. exists [], a, b, r. repeat split; auto.
Qed.

Lemma combine_app_l {A B} (a extra : list A) (s : list B) :
  length a = length s -> combine (a ++ extra) s = combine a s.
Proof.
  revert s; induction a as [|x a IH]; intros [|y s]; simpl;
    try discriminate; intros H.
  - now destruct extra.
  - f_equal. apply IH. lia.
Qed.

Lemma combine_app_r {A B} (a : list A) (s extra : list B) :
  length a = length s -> combine a (s ++ extra) = combine a s.
Proof.
  revert s; induction a as [|x a IH]; intros [|y s]; simpl;
    try discriminate; intros H; [reflexivity|].
  f_equal. apply IH. lia.
Qed.

(** C4: [compare_segments] succeeds exactly when every positionally paired
    couple of segments has the same characters once all whitespace is
    deleted, raises exactly when some couple differs, and then reports the
    first differing couple; the two examples of the specification behave as
    stated. *)
Theorem compare_segments_modulo_whitespace (a s : list string) :
  (compare_segments a s = Return tt <-> Forall same_stream (combine a s))
  /\ ((exists x, compare_segments a s = Raise x)
      <-> Exists (fun p => ~ same_stream p) (combine a s))
  /\ (forall pre x y post,
         combine a s = (pre ++ (x, y) :: post)%list ->
         Forall same_stream pre -> ~ same_stream (x, y) ->
         compare_segments a s = raise_value (ContentModified x y))
  /\ (forall x y,
         same_stream (x, y) <-> non_space_chars x = non_space_chars y)
  /\ compare_segments ["x = 1;"] ["  x   =" ++ Py.nl ++ "1; "] = Return tt
  /\ compare_segments ["x = 1;"] ["x = 2;"]
     = raise_value (ContentModified "x = 1;" "x = 2;").
Proof.
  unfold compare_segments. repeat split.
  - apply compare_pairs_ok.
  - apply compare_pairs_ok.
  - intros [x Hx].
    destruct (compare_pairs_raises _ _ Hx) as (pre & u & v & post & E & _ & N & _).
    rewrite E. apply Exists_app. right. now constructor.
  - intros Hex.
    destruct (compare_pairs (combine a s)) as [[]|x] eqn:E; [|eauto].
    apply compare_pairs_ok in E. exfalso.
    apply Exists_exists in Hex. destruct Hex as (p & Hin & N).
    rewrite Forall_forall in E. auto.
  - intros pre x y post E F N. rewrite E. now apply compare_pairs_first.
  - apply same_stream_filter.
  - apply same_stream_filter.
Qed.

Lemma compare_segments_modulo_whitespace_witness :
  compare_segments ["a b"; "x = 1;"; "z"] ["ab "; "x = 2;"; "y"]
  = raise_value (ContentModified "x = 1;" "x = 2;").
Proof.
  refine (proj1 (proj2 (proj2 (compare_segments_modulo_whitespace
            ["a b"; "x = 1;"; "z"] ["ab "; "x = 2;"; "y"])))
            [("a b", "ab ")] "x = 1;" "x = 2;" [("z", "y")] _ _ _).
  - reflexivity.
  - constructor; [reflexivity | constructor].
  - unfold same_stream; simpl. discriminate.
Defined.

(** C9: segments of the longer list that have no partner are not looked
    at.  With [a] and [s] of the same length, any [extra] segments after
    either of them leave the outcome as it is, and the comparison succeeds
    as soon as every paired couple agrees modulo whitespace. *)
Theorem compare_segments_ignores_unpaired (a s extra : list string) :
  length a = length s ->
  compare_segments (a ++ extra) s = compare_segments a s
  /\ compare_segments a (s ++ extra) = compare_segments a s
  /\ (Forall same_stream (combine a s) ->
      compare_segments (a ++ extra) s = Return tt
      /\ compare_segments a (s ++ extra) = Return tt).
Proof.
  intros H. unfold compare_segments.
  rewrite (combine_app_l a extra s H), (combine_app_r a s extra H).
  repeat split; now apply compare_pairs_ok.
Qed.

Lemma compare_segments_ignores_unpaired_witness :
  compare_segments (["x = 1;"] ++ ["deleted footer"]) ["x=1 ;"] = Return tt.
Proof.
  refine (proj1 (proj2 (proj2 (compare_segments_ignores_unpaired
            ["x = 1;"] ["x=1 ;"] ["deleted footer"] eq_refl)) _)).
  constructor; [reflexivity | constructor].
Defined.

End CompareSegments.

(** ** Dictionaries *)

Section DictFacts.
Context {V : Type}.
Implicit Types (d : list (string * V)) (k : string) (v : V).

Lemma dict_get_set d k v k' :
  dict_get (dict_set d k v) k'
  = if k =? k' then Some v else dict_get d k'.
Proof.
  induction d as [|[k0 v0] d IH]; simpl.
  - reflexivity.
  - destruct (String.eqb_spec k0 k) as [->|N]; simpl.
    + now destruct (k =? k').
    + destruct (String.eqb_spec k0 k') as [->|N'].
      * destruct (String.eqb_spec k k'); [congruence | reflexivity].
      * exact IH.
Qed.

Lemma dict_get_none d k : dict_get d k = None <-> ~ In k (map fst d).
Proof.
  induction d as [|[k0 v0] d IH]; simpl; [tauto|].
  destruct (String.eqb_spec k0 k) as [->|N].
  - split; [discriminate | tauto].
  - rewrite IH. tauto.
Qed.

Lemma dict_get_in d k v : dict_get d k = Some v -> In (k, v) d.
Proof.
  induction d as [|[k0 v0] d IH]; simpl; [discriminate|].
  destruct (String.eqb_spec k0 k) as [->|N].
  - intros [= ->]. now left.
  - auto.
Qed.

Lemma dict_in_get d k v :
  NoDup (map fst d) -> In (k, v) d -> dict_get d k = Some v.
Proof.
  induction d as [|[k0 v0] d IH]; simpl; [tauto|].
  intros ND [[= -> ->]|Hin].
  - now rewrite String.eqb_refl.
  - inversion ND as [|? ? Hnot ND']; subst.
    destruct (String.eqb_spec k0 k) as [->|N]; [|auto].
    exfalso. apply Hnot. now apply (in_map fst) in Hin.
Qed.

Lemma dict_set_new d k v :
  dict_get d k = None -> dict_set d k v = (d ++ [(k, v)])%list.
Proof.
  induction d as [|[k0 v0] d IH]; simpl; [reflexivity|].
  destruct (String.eqb_spec k0 k); [discriminate|].
  intros H. now rewrite IH.
Qed.

Lemma dict_set_keys d k v v0 :
  dict_get d k = Some v0 -> map fst (dict_set d k v) = map fst d.
Proof.
  induction d as [|[k1 v1] d IH]; simpl; [discriminate|].
  destruct (String.eqb_spec k1 k) as [->|N]; simpl; [reflexivity|].
  intros H. now rewrite IH.
Qed.

End DictFacts.

Lemma dict_set_begins {E} (d : list (string * (nat * E))) k b (x y : E) :
  dict_get d k = Some (b, y) ->
  map begin_of (dict_set d k (b, x)) = map begin_of d.
Proof.
  induction d as [|[k1 [b1 y1]] d IH]; simpl; [discriminate|].
  destruct (String.eqb_spec k1 k) as [->|N]; simpl.
  - now intros [= -> _].
  - intros H. now rewrite IH.
Qed.

(** ** The scanning loop of extract_tags *)

Section Scan.

Lemma begins_app (a b : list event) :
  begins (a ++ b) = (begins a ++ begins b)%list.
Proof.
  induction a as [|[n [[] t]] a IH]; simpl; [reflexivity| |assumption].
  now rewrite IH.
Qed.

Lemma dict_mem_false {V} (d : list (string * V)) k :
  dict_mem d k = false -> dict_get d k = None.
Proof. unfold dict_mem. now destruct (dict_get d k). Qed.

Lemma scan_inv_init (bound : nat) : scan_inv bound [] [].
Proof.
  split; simpl; try constructor; try discriminate; try tauto.
  now intros (b & H).
Qed.

Lemma scan_inv_mono (b b' : nat) evs tags :
  b <= b' -> scan_inv b evs tags -> scan_inv b' evs tags.
Proof.
  intros Hle [A B C D]. split; auto.
  intros t b0 oe H. destruct (D t b0 oe H) as [H1 H2]. split; [lia|].
  intros e He. specialize (H2 e He). lia.
Qed.

Lemma scan_inv_step bound evs tags n ty t tags' :
  scan_inv bound evs tags -> bound <= n ->
  record_marker tags n ty t = Return tags' ->
  scan_inv (S n) (evs ++ [(n, (ty, t))]) tags'.
Proof.
  intros [A B C D] Hle. destruct ty; simpl.
  - (* BEGIN *)
    destruct (dict_mem tags t) eqn:M; [discriminate|].
    apply dict_mem_false in M. intros [= <-].
    split.
    + rewrite (dict_set_new _ _ _ M), map_app, begins_app, A. reflexivity.
    + rewrite (dict_set_new _ _ _ M), map_app. simpl.
      apply NoDup_app; auto.
      * constructor; [tauto | constructor].
      * intros a Ha [<-|[]]. now apply dict_get_none in M.
    + intros n' t'. rewrite in_app_iff, dict_get_set. simpl.
      destruct (String.eqb_spec t t') as [<-|N].
      * split.
        -- intros [H|[H|[]]]; [|discriminate].
           apply C in H as (b & H). congruence.
        -- intros (b & H). discriminate.
      * rewrite <- C. split; [intros [H|[H|[]]]|]; auto. discriminate.
    + intros t' b oe. rewrite dict_get_set.
      destruct (String.eqb_spec t t') as [<-|N].
      * intros [= <- <-]. split; [lia | discriminate].
      * intros H. destruct (D t' b oe H) as [H1 H2]. split; [lia|].
        intros e He. specialize (H2 e He). lia.
  - (* END *)
    destruct (dict_get tags t) as [[b0 [e0|]]|] eqn:G; try discriminate.
    intros [= <-]. split.
    + rewrite (dict_set_begins _ _ _ _ _ G), begins_app, A. simpl.
      now rewrite app_nil_r.
    + now rewrite (dict_set_keys _ _ _ _ G).
    + intros n' t'. rewrite in_app_iff, dict_get_set. simpl.
      destruct (String.eqb_spec t t') as [<-|N].
      * split.
        -- intros [H|[[= <-]|[]]]; [|eauto].
           apply C in H as (b & H). congruence.
        -- intros (b & [= _ <-]). auto.
      * rewrite <- C. split; [intros [H|[H|[]]]|]; auto. congruence.
    + intros t' b oe. rewrite dict_get_set.
      destruct (String.eqb_spec t t') as [<-|N].
      * intros [= <- <-]. destruct (D t b0 None G) as [H1 _].
        split; [lia|]. intros e [= <-]. lia.
      * intros H. destruct (D t' b oe H) as [H1 H2]. split; [lia|].
        intros e He. specialize (H2 e He). lia.
Qed.

Lemma scan_lines_inv (lines : list string) :
  forall n tags evs tags',
    scan_inv n evs tags ->
    scan_lines tags n lines = Return tags' ->
    scan_inv (n + length lines) (evs ++ markers_from n lines) tags'.
Proof.
  induction lines as [|line rest IH]; intros n tags evs tags' Inv; simpl.
  - intros [= <-]. rewrite app_nil_r, Nat.add_0_r. assumption.
  - unfold scan_line. replace (n + S (length rest)) with (S n + length rest) by lia.
    destruct (Re.search line) as [[ty t]|]; simpl.
    + destruct (record_marker tags n ty t) as [tags1|x] eqn:R; simpl;
        [|discriminate].
      intros H.
      replace (evs ++ (n, (ty, t)) :: markers_from (S n) rest)%list
        with ((evs ++ [(n, (ty, t))]) ++ markers_from (S n) rest)%list
        by (now rewrite <- app_assoc).
      apply (IH (S n) tags1); [|assumption].
      now apply (scan_inv_step n evs tags).
    + apply IH. apply (scan_inv_mono n); [lia | assumption].
Qed.

End Scan.

(** ** Sorting, closing and the overlap check *)

Section Sorting.
Context {A : Type} (key : A -> nat * nat).

Lemma insert_sorted_perm (x : A) (l : list A) :
  Permutation (Py.insert_sorted key x l) (x :: l).
Proof.
  induction l as [|y l IH]; simpl; [reflexivity|].
  destruct (Py.tuple_le (key x) (key y)); [reflexivity|].
  rewrite IH. apply perm_swap.
Qed.

Lemma sorted_perm (l : list A) : Permutation (Py.sorted key l) l.
Proof.
  induction l as [|x l IH]; simpl; [reflexivity|].
  rewrite insert_sorted_perm. now constructor.
Qed.

Lemma sorted_in (l : list A) (x : A) : In x (Py.sorted key l) <-> In x l.
Proof.
  split; apply Permutation_in;
    [apply sorted_perm | symmetry; apply sorted_perm].
Qed.

Lemma sorted_length (l : list A) : length (Py.sorted key l) = length l.
Proof. apply Permutation_length, sorted_perm. Qed.

End Sorting.

Lemma insert_sorted_map {A B} (f : A -> B) (key : B -> nat * nat) x l :
  map f (Py.insert_sorted (fun a => key (f a)) x l)
  = Py.insert_sorted key (f x) (map f l).
Proof.
  induction l as [|y l IH]; simpl; [reflexivity|].
  destruct (Py.tuple_le (key (f x)) (key (f y))); simpl; [reflexivity|].
  now rewrite IH.
Qed.

Lemma sorted_map {A B} (f : A -> B) (key : B -> nat * nat) l :
  map f (Py.sorted (fun a => key (f a)) l) = Py.sorted key (map f l).
Proof.
  induction l as [|x l IH]; simpl; [reflexivity|].
  now rewrite insert_sorted_map, IH.
Qed.

Lemma sorted_values (tags : TagMap) :
  map snd (Py.sorted snd tags) = Py.sorted id (map snd tags).
Proof. exact (sorted_map snd id tags). Qed.

Section Closing.

Lemma check_closed_ok (tags : open_tags) (tm : TagMap) :
  check_closed tags = Return tm -> tags = map opened tm.
Proof.
  revert tm; induction tags as [|[t [b [e|]]] tags IH]; intros tm; simpl.
  - now intros [= <-].
  - destruct (check_closed tags) as [tm'|x]; simpl; [|discriminate].
    intros [= <-]. simpl. unfold opened at 1. simpl. f_equal. now apply IH.
  - discriminate.
Qed.

Lemma check_closed_raises (tags : open_tags) x :
  check_closed tags = Raise x ->
  exists t b, In (t, (b, None)) tags /\ x = ValueError (UnmatchedBegin t b).
Proof.
  induction tags as [|[t [b [e|]]] tags IH]; simpl; [discriminate| |].
  - destruct (check_closed tags) as [tm'|x']; simpl; [discriminate|].
    intros [= <-]. destruct (IH eq_refl) as (t' & b' & Hin & ->).
    exists t', b'. auto.
  - intros [= <-]. exists t, b. auto.
Qed.

Lemma dict_get_opened (tm : TagMap) (t : string) :
  dict_get (map opened tm) t
  = option_map (fun v => (fst v, Some (snd v))) (dict_get tm t).
Proof.
  induction tm as [|[k [b e]] tm IH]; simpl; [reflexivity|].
  destruct (k =? t); [reflexivity | exact IH].
Qed.

Lemma begin_of_opened (tm : TagMap) :
  map begin_of (map opened tm) = map begin_of tm.
Proof. rewrite map_map. now apply map_ext. Qed.

Lemma keys_opened (tm : TagMap) : map fst (map opened tm) = map fst tm.
Proof. rewrite map_map. now apply map_ext. Qed.

Lemma check_overlap_disjoint (l : TagMap) :
  check_overlap l = Return tt ->
  (forall t b e, In (t, (b, e)) l -> b < e) ->
  disjoint_spans (map snd l).
Proof.
  unfold disjoint_spans.
  induction l as [|[ct [cb ce]] l IH]; simpl; intros H Hlt.
  - constructor.
  - destruct l as [|[nt [nb ne]] l'].
    + constructor; constructor.
    + destruct (Nat.ltb_spec nb ce) as [|Hge]; [discriminate|].
      assert (S' : StronglySorted (fun x y => snd x <= fst y)
                     (map snd ((nt, (nb, ne)) :: l'))).
      { apply IH; [exact H|]. intros t b e Hin. apply (Hlt t b e). now right. }
      constructor; [exact S'|].
      simpl in S'. apply StronglySorted_inv in S' as [_ F].
      assert (nb < ne) by (apply (Hlt nt); right; now left).
      simpl. constructor; [simpl; lia|].
      eapply Forall_impl; [|exact F]. simpl. intros [b e]. simpl. lia.
Qed.

Lemma check_overlap_raises (l : TagMap) x :
  check_overlap l = Raise x -> exists e, x = ValueError e.
Proof.
  induction l as [|[ct [cb ce]] l IH]; simpl; [discriminate|].
  destruct l as [|[nt [nb ne]] l']; [discriminate|].
  destruct (nb <? ce)%nat; [|exact IH].
  intros [= <-]. eauto.
Qed.

End Closing.

(** ** The map extract_tags returns *)

Section ExtractTags.

Lemma markers_from_in (lines : list string) :
  forall n0 n m,
    In (n, m) (markers_from n0 lines)
    <-> n0 <= n /\ exists line, nth_error lines (n - n0) = Some line
                                /\ Re.search line = Some m.
Proof.
  induction lines as [|l rest IH]; intros n0 n m; simpl.
  - split; [tauto|]. intros (_ & line & H & _). now destruct (n - n0).
  - assert (Rest : In (n, m) (markers_from (S n0) rest)
                   <-> n0 < n /\ exists line,
                         nth_error (l :: rest) (n - n0) = Some line
                         /\ Re.search line = Some m).
    { rewrite IH. split.
      - intros (Hle & line & H1 & H2). split; [lia|]. exists line.
        replace (n - n0) with (S (n - S n0)) by lia. auto.
      - intros (Hlt & line & H1 & H2). split; [lia|]. exists line.
        replace (n - n0) with (S (n - S n0)) in H1 by lia. auto. }
    assert (Here : forall m', Re.search l = Some m' ->
              (n0 = n /\ m' = m)
              <-> n0 = n /\ exists line,
                    nth_error (l :: rest) (n - n0) = Some line
                    /\ Re.search line = Some m).
    { intros m' Hm. split.
      - intros [<- <-]. split; [reflexivity|]. exists l.
        now rewrite Nat.sub_diag.
      - intros (<- & line & H1 & H2). rewrite Nat.sub_diag in H1.
        injection H1 as <-. split; congruence. }
    destruct (Re.search l) as [m'|] eqn:E; simpl.
    + rewrite Rest. specialize (Here m' eq_refl). split.
      * intros [[= <- <-]|[Hlt H]].
        -- split; [lia|]. apply Here. auto.
        -- split; [lia | exact H].
      * intros (Hle & H). destruct (Nat.eq_dec n0 n) as [<-|N].
        -- left. f_equal. now apply Here.
        -- right. split; [lia | exact H].
    + rewrite Rest. split.
      * intros [Hlt H]. split; [lia | exact H].
      * intros (Hle & line & H1 & H2).
        destruct (Nat.eq_dec n0 n) as [<-|N].
        -- rewrite Nat.sub_diag in H1. injection H1 as <-. congruence.
        -- split; [lia|]. eauto.
Qed.

Lemma markers_in (text : string) n m :
  In (n, m) (markers text) <-> marker_at text n = Some m.
Proof.
  unfold markers, marker_at. rewrite markers_from_in. split.
  - intros (Hle & line & H1 & H2). destruct n as [|i]; [lia|].
    replace (S i - 1) with i in H1 by lia. now rewrite H1.
  - destruct n as [|i]; [discriminate|].
    destruct (nth_error (Py.splitlines text) i) as [line|] eqn:E;
      [|discriminate].
    intros H. split; [lia|]. exists line.
    replace (S i - 1) with i by lia. auto.
Qed.

Lemma marker_at_range (text : string) n m :
  marker_at text n = Some m -> 1 <= n <= length (Py.splitlines text).
Proof.
  destruct n as [|i]; simpl; [discriminate|].
  destruct (nth_error (Py.splitlines text) i) eqn:E; [|discriminate].
  intros _. assert (i < length (Py.splitlines text)); [|lia].
  apply nth_error_Some. congruence.
Qed.

Lemma in_begins (evs : list event) t n :
  In (t, n) (begins evs) <-> In (n, (BEGIN, t)) evs.
Proof.
  induction evs as [|[n' [[] t']] evs IH]; simpl; [tauto| |].
  - rewrite IH. split; intros [[= <- <-]|H]; auto.
  - rewrite IH. split; [auto | intros [H|H]; [discriminate | auto]].
Qed.

Lemma scan_lines_raises (lines : list string) :
  forall tags n x,
    scan_lines tags n lines = Raise x -> exists e, x = ValueError e.
Proof.
  induction lines as [|l rest IH]; intros tags n x; simpl; [discriminate|].
  unfold scan_line. destruct (Re.search l) as [[ty t]|]; simpl; [|apply IH].
  destruct (record_marker tags n ty t) as [tags'|x'] eqn:R; simpl;
    [apply IH|].
  intros [= <-]. unfold record_marker in R.
  destruct ty.
  - destruct (dict_mem tags t); [|discriminate]. injection R as <-. eauto.
  - destruct (dict_get tags t) as [[b [e|]]|]; try discriminate;
      injection R as <-; eauto.
Qed.

(** [extract_tags] raises nothing but [ValueError]. *)
Lemma extract_tags_raises (text : string) x :
  extract_tags text = Raise x -> exists e, x = ValueError e.
Proof.
  unfold extract_tags.
  destruct (scan_lines [] 1 (Py.splitlines text)) as [tags0|x0] eqn:S;
    simpl.
  - destruct (check_closed tags0) as [tags|x1] eqn:C; simpl.
    + destruct (check_overlap (Py.sorted snd tags)) as [[]|x2] eqn:O;
        simpl; [discriminate|].
      intros [= <-]. now apply check_overlap_raises in O.
    + intros [= <-]. apply check_closed_raises in C as (t & b & _ & ->).
      eauto.
  - intros [= <-]. now apply scan_lines_raises in S.
Qed.

Lemma extract_tags_well_formed (text : string) (tags : TagMap) :
  extract_tags text = Return tags -> well_formed (markers text) tags.
Proof.
  unfold extract_tags.
  destruct (scan_lines [] 1 (Py.splitlines text)) as [tags0|x0] eqn:S;
    simpl; [|discriminate].
  destruct (check_closed tags0) as [tags1|x1] eqn:C; simpl; [|discriminate].
  destruct (check_overlap (Py.sorted snd tags1)) as [[]|x2] eqn:O;
    simpl; [|discriminate].
  intros [= <-].
  apply (scan_lines_inv _ 1 [] []) in S; [|apply scan_inv_init].
  simpl in S. fold (markers text) in S.
  apply check_closed_ok in C. subst tags0. destruct S as [A B E D].
  rewrite begin_of_opened in A. rewrite keys_opened in B.
  assert (Lt : forall t b e, In (t, (b, e)) tags1 -> b < e).
  { intros t b e Hin. apply dict_in_get in Hin; [|exact B].
    destruct (D t b (Some e)) as [_ H].
    - rewrite dict_get_opened, Hin. reflexivity.
    - now apply H. }
  split; auto.
  - intros n t. rewrite E. split.
    + intros (b & H). rewrite dict_get_opened in H.
      destruct (dict_get tags1 t) as [[b' e']|]; [|discriminate].
      simpl in H. injection H as <- <-. eauto.
    + intros (b & H). exists b. now rewrite dict_get_opened, H.
  - rewrite <- sorted_values. apply check_overlap_disjoint; [exact O|].
    intros t b e Hin. apply (Lt t). now apply sorted_in in Hin.
Qed.

End ExtractTags.

(** ** Consequences of well-formedness *)

Lemma disjoint_pair (l : list (nat * nat)) x y :
  disjoint_spans l -> In x l -> In y l ->
  x = y \/ snd x <= fst y \/ snd y <= fst x.
Proof.
  unfold disjoint_spans. intros S.
  induction S as [|z l S IH F]; [intros []|].
  rewrite Forall_forall in F.
  intros [<-|I1] [<-|I2]; auto.
Qed.

Section WellFormed.
Variables (text : string) (tags : TagMap).
Hypothesis W : well_formed (markers text) tags.

Lemma begin_entry n t :
  marker_at text n = Some (BEGIN, t) ->
  exists e, dict_get tags t = Some (n, e).
Proof.
  intros H. apply markers_in, in_begins in H.
  rewrite <- (wf_begins _ _ W) in H. apply in_map_iff in H.
  destruct H as ([t' [b e]] & [= -> ->] & Hin).
  exists e. apply dict_in_get; [apply (wf_nodup _ _ W) | exact Hin].
Qed.

Lemma end_entry n t :
  marker_at text n = Some (END, t) ->
  exists b, dict_get tags t = Some (b, n).
Proof. intros H. now apply markers_in, (wf_ends _ _ W) in H. Qed.

Lemma entry_span t b e :
  dict_get tags t = Some (b, e) -> is_span text t b e /\ b < e.
Proof.
  intros G. pose proof (dict_get_in _ _ _ G) as Hin. repeat split.
  - apply markers_in, in_begins. rewrite <- (wf_begins _ _ W).
    apply in_map_iff. now exists (t, (b, e)).
  - apply markers_in, (wf_ends _ _ W). eauto.
  - now apply (wf_lt _ _ W t).
Qed.

Lemma in_entry_span t b e :
  In (t, (b, e)) tags -> is_span text t b e /\ b < e.
Proof.
  intros Hin. apply entry_span, dict_in_get; [apply (wf_nodup _ _ W)|auto].
Qed.

Lemma span_entry t b e : is_span text t b e -> In (t, (b, e)) tags.
Proof.
  intros [Hb He]. apply begin_entry in Hb as (e' & G1).
  apply end_entry in He as (b' & G2).
  rewrite G1 in G2. injection G2 as <- <-. now apply dict_get_in.
Qed.

Lemma entries_in_order t1 b1 e1 t2 b2 e2 :
  In (t1, (b1, e1)) tags -> In (t2, (b2, e2)) tags ->
  b1 < b2 -> e1 <= b2.
Proof.
  intros H1 H2 Hlt.
  assert (L2 : b2 < e2) by now apply (wf_lt _ _ W t2).
  assert (I1 : In (b1, e1) (Py.sorted id (map snd tags))).
  { apply sorted_in, in_map_iff. now exists (t1, (b1, e1)). }
  assert (I2 : In (b2, e2) (Py.sorted id (map snd tags))).
  { apply sorted_in, in_map_iff. now exists (t2, (b2, e2)). }
  destruct (disjoint_pair _ _ _ (wf_disjoint _ _ W) I1 I2) as [E|[H|H]].
  - injection E. lia.
  - simpl in H. lia.
  - simpl in H. lia.
Qed.

End WellFormed.

Section MalformedDocuments.

(** C5: a document with an unmatched BEGIN, an unmatched END, a duplicated
    tag or two overlapping spans makes [extract_tags] raise a
    [ValueError]. *)
Theorem extract_tags_rejects_malformed (text : string) :
  unmatched_begin text \/ unmatched_end text
  \/ duplicated_tag text \/ overlapping_spans text ->
  exists e, extract_tags text = raise_value e.
Proof.
  intros Bad.
  destruct (extract_tags text) as [tags|x] eqn:E.
  2:{ destruct (extract_tags_raises _ _ E) as (e & ->). now exists e. }
  exfalso. apply extract_tags_well_formed in E. rename E into W.
  destruct Bad as [(b & t & Hb & No)|[(e & t & He & No)|
                   [(ty & t & n1 & n2 & Ne & M1 & M2)|
                    (t1 & b1 & e1 & t2 & b2 & e2 & S1 & S2 & Ne & Le & Ov)]]].
  - destruct (begin_entry _ _ W _ _ Hb) as (e & G).
    destruct (entry_span _ _ W _ _ _ G) as [[_ He] _]. now apply (No e).
  - destruct (end_entry _ _ W _ _ He) as (b & G).
    destruct (entry_span _ _ W _ _ _ G) as [[Hb _] Hlt]. now apply (No b).
  - destruct ty.
    + destruct (begin_entry _ _ W _ _ M1) as (x1 & G1).
      destruct (begin_entry _ _ W _ _ M2) as (x2 & G2). congruence.
    + destruct (end_entry _ _ W _ _ M1) as (x1 & G1).
      destruct (end_entry _ _ W _ _ M2) as (x2 & G2). congruence.
  - pose proof (span_entry _ _ W _ _ _ S1) as I1.
    pose proof (span_entry _ _ W _ _ _ S2) as I2.
    unfold Py.tuple_le in Le. simpl in Le.
    apply orb_true_iff in Le as [Lt|Eq].
    + apply Nat.ltb_lt in Lt.
      pose proof (entries_in_order _ _ W _ _ _ _ _ _ I1 I2 Lt). lia.
    + apply andb_true_iff in Eq as [Eq _]. apply Nat.eqb_eq in Eq.
      subst b2. destruct S1 as [B1 _], S2 as [B2 _].
      rewrite B1 in B2. injection B2 as <-.
      apply dict_in_get in I1, I2; try apply (wf_nodup _ _ W).
      rewrite I1 in I2. injection I2 as <-. now apply Ne.
Qed.

Lemma extract_tags_rejects_malformed_witness :
  exists e,
    extract_tags (unlines ["// BEGIN-TODO(a)"; "// BEGIN-TODO(b)";
                           "// END-TODO(a)"; "// END-TODO(b)"])
    = raise_value e.
Proof.
  apply extract_tags_rejects_malformed.
  right; right; right.
  exists "a", 1, 3, "b", 2, 4.
  repeat split; try reflexivity; try discriminate. lia.
Defined.

End MalformedDocuments.

Section ReturnedMap.

(** C7: the map [extract_tags] returns has one entry per tag; the entry of
    a tag holds the line of its BEGIN marker and the line of its END
    marker, which are the only BEGIN and END markers of that tag, with
    [end_line > begin_line]; of two different entries, the one that does
    not begin later ends no later than the other begins; and the entries
    come in the order of the BEGIN markers in the document. *)
Theorem extract_tags_invariants (text : string) (tags : TagMap) :
  extract_tags text = Return tags ->
  NoDup (map fst tags)
  /\ (forall t b e,
         In (t, (b, e)) tags ->
         is_span text t b e /\ b < e
         /\ (forall n, marker_at text n = Some (BEGIN, t) -> n = b)
         /\ (forall n, marker_at text n = Some (END, t) -> n = e))
  /\ (forall t1 b1 e1 t2 b2 e2,
         In (t1, (b1, e1)) tags -> In (t2, (b2, e2)) tags ->
         (t1, (b1, e1)) <> (t2, (b2, e2)) ->
         b1 <= b2 -> e1 <= b2)
  /\ map begin_of tags = begins (markers text).
Proof.
  intros E. apply extract_tags_well_formed in E. rename E into W.
  pose proof (wf_nodup _ _ W) as ND.
  split; [exact ND|]. split; [|split; [|apply (wf_begins _ _ W)]].
  - intros t b e Hin.
    destruct (in_entry_span _ _ W _ _ _ Hin) as [Sp Lt].
    apply dict_in_get in Hin; [|exact ND].
    repeat split; try apply Sp; try exact Lt.
    + intros n Hn. destruct (begin_entry _ _ W _ _ Hn) as (e' & G).
      congruence.
    + intros n Hn. destruct (end_entry _ _ W _ _ Hn) as (b' & G).
      congruence.
  - intros t1 b1 e1 t2 b2 e2 I1 I2 Ne Le.
    destruct (Nat.eq_dec b1 b2) as [<-|Nb].
    + exfalso. apply Ne.
      destruct (in_entry_span _ _ W _ _ _ I1) as [[B1 _] _].
      destruct (in_entry_span _ _ W _ _ _ I2) as [[B2 _] _].
      rewrite B1 in B2. injection B2 as <-.
      apply dict_in_get in I1, I2; try exact ND. congruence.
    + apply (entries_in_order _ _ W t1 b1 e1 t2 b2 e2); auto. lia.
Qed.

Lemma extract_tags_invariants_witness :
  map begin_of [("b", (2, 4)); ("a", (5, 6))]
  = begins (markers (unlines ["x"; "// BEGIN-TODO(b)"; "y"; "// END-TODO(b)";
                              "// BEGIN-TODO(a)"; "// END-TODO(a)"])).
Proof.
  refine (proj2 (proj2 (proj2 (extract_tags_invariants
            (unlines ["x"; "// BEGIN-TODO(b)"; "y"; "// END-TODO(b)";
                      "// BEGIN-TODO(a)"; "// END-TODO(a)"])
            [("b", (2, 4)); ("a", (5, 6))] _)))).
  reflexivity.
Defined.

End ReturnedMap.

(** ** Slices and joined lines *)

Section Slices.
Context {A : Type}.
Implicit Types (l : list A).

Lemma slice_skipn l lo mid :
  lo <= mid -> (Py.slice l lo mid ++ skipn mid l)%list = skipn lo l.
Proof.
  intros H. unfold Py.slice.
  replace (skipn mid l) with (skipn (mid - lo) (skipn lo l)).
  - apply firstn_skipn.
  - rewrite skipn_skipn. f_equal. lia.
Qed.

Lemma slice_in l lo hi x :
  In x (Py.slice l lo hi)
  <-> exists i, lo <= i < hi /\ nth_error l i = Some x.
Proof.
  unfold Py.slice. split.
  - intros H. apply In_nth_error in H as [j H].
    rewrite nth_error_firstn, nth_error_skipn in H.
    destruct (Nat.ltb_spec j (hi - lo)); [|discriminate].
    exists (lo + j). split; [lia | exact H].
  - intros (i & Hi & H). apply (nth_error_In _ (i - lo)).
    rewrite nth_error_firstn, nth_error_skipn.
    destruct (Nat.ltb_spec (i - lo) (hi - lo)); [|lia].
    now replace (lo + (i - lo)) with i by lia.
Qed.

Lemma skipn_in l lo x :
  In x (skipn lo l) <-> exists i, lo <= i /\ nth_error l i = Some x.
Proof.
  split.
  - intros H. apply In_nth_error in H as [j H].
    rewrite nth_error_skipn in H. exists (lo + j). split; [lia | exact H].
  - intros (i & Hi & H). apply (nth_error_In _ (i - lo)).
    rewrite nth_error_skipn. now replace (lo + (i - lo)) with i by lia.
Qed.

Lemma slice_length l lo hi :
  hi <= length l -> length (Py.slice l lo hi) = hi - lo.
Proof.
  intros H. unfold Py.slice. rewrite length_firstn, length_skipn. lia.
Qed.

Lemma slice_nonempty l lo hi :
  hi <= length l -> nonempty (Py.slice l lo hi) = (lo <? hi)%nat.
Proof.
  intros H. pose proof (slice_length l lo hi H) as L.
  destruct (Py.slice l lo hi); simpl in *;
    destruct (Nat.ltb_spec lo hi); auto; lia.
Qed.

Lemma skipn_nonempty l lo :
  nonempty (skipn lo l) = (lo <? length l)%nat.
Proof.
  pose proof (length_skipn lo l) as L.
  destruct (skipn lo l); simpl in *;
    destruct (Nat.ltb_spec lo (length l)); auto; lia.
Qed.

End Slices.

Section Joining.

Lemma split_from_app (x : string) :
  string_forall not_newline x = true ->
  forall cur s, Py.split_from cur (x ++ s) = Py.split_from (cur ++ x) s.
Proof.
  induction x as [|c x IH]; simpl; intros H cur s.
  - now rewrite append_nil_r.
  - apply andb_true_iff in H as [Hc Hx]. unfold not_newline in Hc.
    destruct (Ascii.eqb c Py.LF); [discriminate|].
    rewrite (IH Hx). f_equal. rewrite append_assoc. reflexivity.
Qed.

(** Splitting a joined list of lines gives the lines back. *)
Lemma split_join (g : list string) :
  g <> [] -> Forall (fun x => string_forall not_newline x = true) g ->
  Py.split_nl (Py.join g) = g.
Proof.
  unfold Py.split_nl, Py.join. intros Hne F.
  induction F as [|x g Hx F IH]; [contradiction|]. clear Hne.
  destruct g as [|y g].
  - simpl. rewrite <- (append_nil_r x) at 1.
    now rewrite (split_from_app x Hx).
  - change (String.concat Py.nl (x :: y :: g))
      with (x ++ Py.nl ++ String.concat Py.nl (y :: g)).
    rewrite (split_from_app x Hx). simpl. f_equal.
    apply IH. discriminate.
Qed.

End Joining.

(** ** The segment loop *)

Section Segments.
Variable lines : list string.

Lemma gaps_loop_length spans prev :
  length (gaps_loop lines prev spans) = S (length spans).
Proof.
  revert prev; induction spans as [|[b e] r IH]; intros prev; simpl;
    [reflexivity | now rewrite IH].
Qed.

Lemma chained_in len spans :
  forall prev b e,
    chained len prev spans -> In (b, e) spans ->
    prev < b /\ b < e /\ e <= len.
Proof.
  induction spans as [|[b0 e0] r IH]; intros prev b e; simpl; [tauto|].
  intros (H1 & H2 & H3) [[= <- <-]|Hin].
  - repeat split; auto. clear IH. destruct r as [|[b1 e1] r']; simpl in H3.
    + exact H3.
    + destruct H3 as (H4 & H5 & H6).
      assert (G : forall sp p, chained len p sp -> p <= len).
      { induction sp as [|[x y] sp IHsp]; simpl; intros p; [auto|].
        intros (? & ? & K). apply IHsp in K. lia. }
      apply G in H6. lia.
  - destruct (IH e0 b e H3 Hin) as (? & ? & ?). lia.
Qed.

Lemma chained_le len spans prev : chained len prev spans -> prev <= len.
Proof.
  destruct spans as [|[b e] r]; simpl; [auto|]. intros H.
  destruct (chained_in len ((b, e) :: r) prev b e H) as (? & ? & ?);
    [now left | lia].
Qed.

Lemma segments_gaps spans :
  forall prev,
    chained (length lines) prev spans ->
    segments_loop lines prev spans
    = map Py.join (filter nonempty (gaps_loop lines prev spans)).
Proof.
  induction spans as [|[b e] r IH]; intros prev H; simpl.
  - unfold Py.slice_from. rewrite skipn_nonempty.
    now destruct (prev <? length lines)%nat.
  - destruct H as (H1 & H2 & H3). pose proof (chained_le _ _ _ H3).
    rewrite slice_nonempty by lia. rewrite (IH e H3).
    now destruct (prev <? b - 1)%nat.
Qed.

Lemma weave_gaps spans :
  forall prev,
    chained (length lines) prev spans ->
    weave (gaps_loop lines prev spans) (map (span_lines lines) spans)
    = skipn prev lines.
Proof.
  induction spans as [|[b e] r IH]; intros prev H; simpl.
  - reflexivity.
  - destruct H as (H1 & H2 & H3). rewrite (IH e H3).
    unfold span_lines. simpl.
    rewrite (slice_skipn lines (b - 1) e) by lia.
    apply slice_skipn. lia.
Qed.

(** No span boundary lies strictly inside a gap. *)
Lemma gaps_avoid_spans (P : nat -> Prop) spans :
  forall prev,
    chained (length lines) prev spans ->
    (forall n, prev < n -> P n ->
               exists b e, In (b, e) spans /\ (n = b \/ n = e)) ->
    forall g line,
      In g (gaps_loop lines prev spans) -> In line g ->
      exists n, nth_error lines (n - 1) = Some line /\ 1 <= n /\ ~ P n.
Proof.
  induction spans as [|[b e] r IH]; intros prev H Cover g line; simpl.
  - intros [<-|[]] Hin. apply skipn_in in Hin as (j & Hj & Hn).
    exists (S j). replace (S j - 1) with j by lia.
    repeat split; [exact Hn | lia |].
    intros Pn. destruct (Cover (S j)) as (b & e & [] & _); [lia | exact Pn].
  - destruct H as (H1 & H2 & H3). intros [<-|Hg] Hin.
    + apply slice_in in Hin as (j & Hj & Hn).
      exists (S j). replace (S j - 1) with j by lia.
      repeat split; [exact Hn | lia |].
      intros Pn. destruct (Cover (S j)) as (b' & e' & Hs & Hends);
        [lia | exact Pn |].
      destruct Hs as [[= <- <-]|Hs]; [lia|].
      destruct (chained_in _ _ _ _ _ H3 Hs) as (? & ? & ?). lia.
    + apply (IH e H3) with (g := g); auto.
      intros n Hn Pn. destruct (Cover n) as (b' & e' & Hs & Hends);
        [lia | exact Pn |].
      destruct Hs as [[= <- <-]|Hs]; [lia|]. eauto.
Qed.

End Segments.

Lemma chained_intro (len : nat) (spans : list (nat * nat)) :
  forall prev,
    disjoint_spans spans ->
    (forall b e, In (b, e) spans -> prev < b /\ b < e /\ e <= len) ->
    (forall x y, In x spans -> In y spans -> snd x <> fst y) ->
    prev <= len ->
    chained len prev spans.
Proof.
  unfold disjoint_spans.
  induction spans as [|[b e] r IH]; intros prev S Rng Ne Hle; simpl.
  - exact Hle.
  - destruct (Rng b e) as (H1 & H2 & H3); [now left|].
    apply StronglySorted_inv in S as [S F]. rewrite Forall_forall in F.
    repeat split; auto. apply IH; auto.
    + intros b' e' Hin. destruct (Rng b' e') as (K1 & K2 & K3); [now right|].
      specialize (F _ Hin). simpl in F.
      assert (e <> b') by (apply (Ne (b, e) (b', e')); simpl; auto).
      lia.
    + intros x y Hx Hy. apply Ne; now right.
Qed.

Lemma chained_of_well_formed (text : string) (tags : TagMap) :
  well_formed (markers text) tags ->
  chained (length (Py.splitlines text)) 0 (spans_of tags).
Proof.
  intros W. unfold spans_of.
  assert (Sp : forall b e, In (b, e) (Py.sorted id (map snd tags)) ->
                           exists t, is_span text t b e /\ b < e).
  { intros b e Hin. apply sorted_in, in_map_iff in Hin.
    destruct Hin as ([t [b' e']] & [= -> ->] & Hin). exists t.
    now apply (in_entry_span _ _ W). }
  apply chained_intro.
  - apply (wf_disjoint _ _ W).
  - intros b e Hin. apply Sp in Hin as (t & [Hb He] & Hlt).
    apply marker_at_range in Hb, He. lia.
  - intros [b1 e1] [b2 e2] H1 H2. simpl.
    apply Sp in H1 as (t1 & [_ He] & _). apply Sp in H2 as (t2 & [Hb _] & _).
    intros ->. congruence.
  - lia.
Qed.

(** ** extract_original_segments on the map of extract_tags *)

Section SegmentsOfDocument.
Variables (text : string) (tags : TagMap).
Hypothesis W : well_formed (markers text) tags.

Let lines := Py.splitlines text.

Lemma segments_are_gaps :
  extract_original_segments text tags
  = map Py.join (filter nonempty (gaps text tags)).
Proof.
  unfold extract_original_segments, gaps. apply segments_gaps.
  now apply chained_of_well_formed.
Qed.

Lemma marker_covered n :
  0 < n -> marker_at text n <> None ->
  exists b e, In (b, e) (spans_of tags) /\ (n = b \/ n = e).
Proof.
  intros _ H. destruct (marker_at text n) as [[[] t]|] eqn:M;
    [| |contradiction].
  - destruct (begin_entry _ _ W _ _ M) as (e & G). exists n, e.
    split; [|now left]. apply sorted_in, in_map_iff.
    exists (t, (n, e)). split; [reflexivity | now apply dict_get_in].
  - destruct (end_entry _ _ W _ _ M) as (b & G). exists b, n.
    split; [|now right]. apply sorted_in, in_map_iff.
    exists (t, (b, n)). split; [reflexivity | now apply dict_get_in].
Qed.

Lemma gap_lines g line :
  In g (gaps text tags) -> In line g ->
  In line lines /\ is_marker line = false.
Proof.
  intros Hg Hl.
  destruct (gaps_avoid_spans lines (fun n => marker_at text n <> None)
              (spans_of tags) 0 (chained_of_well_formed _ _ W)
              marker_covered g line Hg Hl) as (n & Hn & Hpos & Not).
  split; [now apply nth_error_In in Hn|].
  unfold is_marker. destruct (Re.search line) as [m|] eqn:E; [|reflexivity].
  exfalso. apply Not. destruct n as [|j]; [lia|]. simpl.
  replace (S j - 1) with j in Hn by lia. fold lines.
  rewrite Hn, E. discriminate.
Qed.

Lemma split_segments :
  map Py.split_nl (extract_original_segments text tags)
  = filter nonempty (gaps text tags).
Proof.
  rewrite segments_are_gaps, map_map.
  rewrite <- (map_id (filter nonempty (gaps text tags))) at 2.
  apply map_ext_in. intros g Hg. apply filter_In in Hg as [Hg Hne].
  apply split_join.
  - now destruct g.
  - apply Forall_forall. intros line Hl.
    apply (splitlines_no_newline text). now apply (gap_lines g).
Qed.

End SegmentsOfDocument.

Section MarkerLinesFrame.

Lemma slice_ext {A} (l l' : list A) lo hi :
  (forall j, lo <= j < hi -> nth_error l j = nth_error l' j) ->
  Py.slice l lo hi = Py.slice l' lo hi.
Proof.
  intros H. unfold Py.slice. apply nth_error_ext. intros n.
  rewrite !nth_error_firstn, !nth_error_skipn.
  destruct (Nat.ltb_spec n (hi - lo)); [|reflexivity]. apply H. lia.
Qed.

Lemma skipn_ext {A} (l l' : list A) lo :
  (forall j, lo <= j -> nth_error l j = nth_error l' j) ->
  skipn lo l = skipn lo l'.
Proof.
  intros H. apply nth_error_ext. intros n.
  rewrite !nth_error_skipn. apply H. lia.
Qed.

Lemma gaps_loop_ext (lines lines' : list string) (P : nat -> Prop) spans :
  (forall j, ~ P (S j) -> nth_error lines j = nth_error lines' j) ->
  forall prev,
    chained (length lines) prev spans ->
    (forall n, prev < n -> P n ->
               exists b e, In (b, e) spans /\ (n = b \/ n = e)) ->
    gaps_loop lines prev spans = gaps_loop lines' prev spans.
Proof.
  intros Agree.
  induction spans as [|[b e] r IH]; intros prev H Cover; simpl.
  - f_equal. apply skipn_ext. intros j Hj. apply Agree. intros Pn.
    destruct (Cover (S j)) as (b & e & [] & _); [lia | exact Pn].
  - destruct H as (H1 & H2 & H3). f_equal.
    + apply slice_ext. intros j Hj. apply Agree. intros Pn.
      destruct (Cover (S j)) as (b' & e' & Hs & Hends); [lia | exact Pn |].
      destruct Hs as [[= <- <-]|Hs]; [lia|].
      destruct (chained_in _ _ _ _ _ H3 Hs) as (? & ? & ?). lia.
    + apply IH; [exact H3|].
      intros n Hn Pn. destruct (Cover n) as (b' & e' & Hs & Hends);
        [lia | exact Pn |].
      destruct Hs as [[= <- <-]|Hs]; [lia|]. eauto.
Qed.

Lemma same_off_marker_search (lines lines' : list string) :
  Forall2 same_off_marker lines lines' ->
  map Re.search lines = map Re.search lines'.
Proof.
  induction 1 as [|l l' r r' [H _] F IH]; simpl; [reflexivity|].
  now rewrite H, IH.
Qed.

Lemma same_off_marker_nth (lines lines' : list string) :
  Forall2 same_off_marker lines lines' ->
  forall j, (forall l, nth_error lines j = Some l -> Re.search l = None) ->
            nth_error lines j = nth_error lines' j.
Proof.
  induction 1 as [|l l' r r' [_ H] F IH]; intros j Hj; [reflexivity|].
  destruct j as [|j]; simpl in *.
  - f_equal. apply H. now apply Hj.
  - now apply IH.
Qed.

Lemma scan_lines_ext (lines lines' : list string) :
  map Re.search lines = map Re.search lines' ->
  forall tags n, scan_lines tags n lines = scan_lines tags n lines'.
Proof.
  revert lines'; induction lines as [|l r IH]; intros [|l' r']; simpl;
    try discriminate; [reflexivity|].
  intros [= H1 H2] tags n. unfold scan_line. rewrite H1.
  destruct (Re.search l') as [[ty t]|]; simpl; [|now apply IH].
  destruct (record_marker tags n ty t); simpl; [now apply IH | reflexivity].
Qed.

Lemma markers_from_ext (lines lines' : list string) :
  map Re.search lines = map Re.search lines' ->
  forall n, markers_from n lines = markers_from n lines'.
Proof.
  revert lines'; induction lines as [|l r IH]; intros [|l' r']; simpl;
    try discriminate; [reflexivity|].
  intros [= H1 H2] n. rewrite H1, (IH r' H2). reflexivity.
Qed.

(** Editing a document on its marker lines only, and keeping every marker
    token, changes neither the map nor the segments. *)
Lemma marker_lines_frame (text text' : string) (tags : TagMap) :
  extract_tags text = Return tags ->
  Forall2 same_off_marker (Py.splitlines text) (Py.splitlines text') ->
  extract_tags text' = Return tags
  /\ extract_original_segments text' tags
     = extract_original_segments text tags.
Proof.
  intros E F.
  pose proof (same_off_marker_search _ _ F) as S.
  assert (E' : extract_tags text' = Return tags).
  { rewrite <- E. unfold extract_tags.
    now rewrite (scan_lines_ext _ _ S). }
  split; [exact E'|].
  pose proof (extract_tags_well_formed _ _ E) as W.
  pose proof (extract_tags_well_formed _ _ E') as W'.
  rewrite (segments_are_gaps _ _ W), (segments_are_gaps _ _ W').
  f_equal. f_equal. unfold gaps. symmetry.
  apply (gaps_loop_ext _ _ (fun n => marker_at text n <> None)).
  - intros j Hj. apply same_off_marker_nth; [exact F|].
    intros l Hl. destruct (Re.search l) eqn:R; [|reflexivity].
    exfalso. apply Hj. simpl. rewrite Hl, R. discriminate.
  - now apply chained_of_well_formed.
  - intros n Hn. now apply marker_covered.
Qed.

End MarkerLinesFrame.

Section SegmentClaims.

(** C6: the gaps of a document whose extraction succeeds, woven with its
    spans in line order, give back the lines of the document; each span
    runs from its BEGIN line through its END line; and the segments
    [extract_original_segments] returns are the non-empty gaps, in order,
    each joined with newlines, so that splitting them gives the same lines
    back. *)
Theorem segments_and_spans_rebuild_document (text : string) (tags : TagMap) :
  extract_tags text = Return tags ->
  length (gaps text tags) = S (length (spans_of tags))
  /\ weave (gaps text tags)
           (map (span_lines (Py.splitlines text)) (spans_of tags))
     = Py.splitlines text
  /\ extract_original_segments text tags
     = map Py.join (filter nonempty (gaps text tags))
  /\ map Py.split_nl (extract_original_segments text tags)
     = filter nonempty (gaps text tags)
  /\ Permutation (spans_of tags) (map snd tags)
  /\ (forall b e,
         In (b, e) (spans_of tags) ->
         length (span_lines (Py.splitlines text) (b, e)) = e - b + 1).
Proof.
  intros E. apply extract_tags_well_formed in E. rename E into W.
  pose proof (chained_of_well_formed _ _ W) as C.
  repeat split.
  - apply gaps_loop_length.
  - unfold gaps. now rewrite weave_gaps.
  - now apply segments_are_gaps.
  - now apply split_segments.
  - apply sorted_perm.
  - intros b e Hin.
    destruct (chained_in _ _ _ _ _ C Hin) as (H1 & H2 & H3).
    unfold span_lines. simpl. rewrite slice_length by lia. lia.
Qed.

Lemma segments_and_spans_rebuild_document_witness :
  weave (gaps tpl [("a", (2, 4))])
        (map (span_lines (Py.splitlines tpl)) (spans_of [("a", (2, 4))]))
  = Py.splitlines tpl.
Proof.
  refine (proj1 (proj2 (segments_and_spans_rebuild_document
                          tpl [("a", (2, 4))] _))).
  reflexivity.
Defined.

(** C10: when the extraction succeeds, no line of a segment returned by
    [extract_original_segments] is a marker line, and every such line is a
    line of the document.  So a document that differs from this one on
    marker lines only, with the same marker on each, has the same map and
    the same segments: [compare_segments] gives the same outcome for both
    against any other list of segments. *)
Theorem segments_exclude_marker_lines (text : string) (tags : TagMap) :
  extract_tags text = Return tags ->
  (forall seg line,
      In seg (extract_original_segments text tags) ->
      In line (Py.split_nl seg) ->
      is_marker line = false /\ In line (Py.splitlines text))
  /\ (forall text',
         Forall2 same_off_marker (Py.splitlines text) (Py.splitlines text') ->
         extract_tags text' = Return tags
         /\ extract_original_segments text' tags
            = extract_original_segments text tags
         /\ forall other,
             compare_segments other (extract_original_segments text' tags)
             = compare_segments other (extract_original_segments text tags)).
Proof.
  intros E. split.
  - intros seg line Hseg Hline.
    apply extract_tags_well_formed in E. rename E into W.
    apply (in_map Py.split_nl) in Hseg.
    rewrite (split_segments _ _ W) in Hseg.
    apply filter_In in Hseg as [Hg _].
    destruct (gap_lines _ _ W _ _ Hg Hline). auto.
  - intros text' F.
    destruct (marker_lines_frame text text' tags E F) as [E' S].
    repeat split; [exact E' | exact S |]. intros other. now rewrite S.
Qed.

Lemma segments_exclude_marker_lines_witness :
  is_marker "footer" = false /\ In "footer" (Py.splitlines tpl).
Proof.
  refine (proj1 (segments_exclude_marker_lines tpl [("a", (2, 4))] _)
            "footer" "footer" _ _).
  - reflexivity.
  - simpl. right. left. reflexivity.
  - simpl. left. reflexivity.
Defined.

End SegmentClaims.

(** ** compare_tags *)

Section CompareTags.

Lemma list_mem_in (x : string) (l : list string) :
  list_mem x l = true <-> In x l.
Proof.
  unfold list_mem. rewrite existsb_exists. split.
  - intros (y & Hin & E). apply String.eqb_eq in E. now subst.
  - intros H. exists x. split; [exact H | apply String.eqb_refl].
Qed.

Lemma filter_nil_all {A} (f : A -> bool) (l : list A) :
  filter f l = [] -> forall x, In x l -> f x = false.
Proof.
  induction l as [|y l IH]; simpl; [tauto|].
  destruct (f y) eqn:E; [discriminate|].
  intros H x [<-|Hin]; auto.
Qed.

Lemma check_order_ok (pairs : list (string * string)) :
  forall i, check_order i pairs = Return tt ->
            forall x y, In (x, y) pairs -> x = y.
Proof.
  induction pairs as [|[a b] r IH]; intros i; simpl; [tauto|].
  destruct (String.eqb_spec a b) as [->|N]; [|discriminate].
  intros H x y [[= <- <-]|Hin]; [reflexivity | eauto].
Qed.

Lemma combine_eq {A} (l l' : list A) :
  length l = length l' ->
  (forall x y, In (x, y) (combine l l') -> x = y) -> l = l'.
Proof.
  revert l'; induction l as [|a l IH]; intros [|b l']; simpl;
    try discriminate; [reflexivity|].
  intros [= Hlen] H. f_equal.
  - apply H. now left.
  - apply IH; [exact Hlen|]. intros x y Hin. apply H. now right.
Qed.

(** Maps that pass [compare_tags] list the same tags in the same order. *)
Lemma compare_tags_ok (a s : TagMap) :
  NoDup (map fst a) -> NoDup (map fst s) ->
  compare_tags a s = Return tt -> map fst a = map fst s.
Proof.
  intros Na Ns. unfold compare_tags.
  destruct (filter (fun tag => negb (list_mem tag (map fst s))) (map fst a))
    eqn:Missing; [|discriminate].
  destruct (filter (fun tag => negb (list_mem tag (map fst a))) (map fst s))
    eqn:Extra; [|discriminate].
  intros Order.
  assert (Ias : incl (map fst a) (map fst s)).
  { intros t Ht. apply list_mem_in.
    apply (filter_nil_all _ _ Missing) in Ht.
    now apply negb_false_iff in Ht. }
  assert (Isa : incl (map fst s) (map fst a)).
  { intros t Ht. apply list_mem_in.
    apply (filter_nil_all _ _ Extra) in Ht.
    now apply negb_false_iff in Ht. }
  apply combine_eq.
  - apply Nat.le_antisymm; now apply NoDup_incl_length.
  - now apply (check_order_ok _ 0).
Qed.

End CompareTags.

Section SegmentCounts.

Lemma filter_length_map {A} (f : A -> bool) (l l' : list A) :
  map f l = map f l' -> length (filter f l) = length (filter f l').
Proof.
  revert l'; induction l as [|x l IH]; intros [|y l']; simpl;
    try discriminate; [reflexivity|].
  intros [= H1 H2]. rewrite H1. destruct (f y); simpl; auto.
Qed.

Lemma spans_of_length (tags : TagMap) :
  length (spans_of tags) = length tags.
Proof. unfold spans_of. now rewrite sorted_length, length_map. Qed.

Lemma paired_segments_are_paired_gaps (l l' : list (list string)) :
  map nonempty l = map nonempty l' ->
  combine (map Py.join (filter nonempty l)) (map Py.join (filter nonempty l'))
  = map (fun p => (Py.join (fst p), Py.join (snd p)))
        (filter (fun p => nonempty (fst p)) (combine l l')).
Proof.
  revert l'; induction l as [|g l IH]; intros [|g' l']; simpl;
    try discriminate; [reflexivity|].
  intros [= Hne Hrest]. rewrite <- Hne.
  destruct (nonempty g); simpl; now rewrite (IH l' Hrest).
Qed.

(** C2, as the code has it: two texts whose maps pass [compare_tags] have
    the same tags in the same order and the same number of gaps, one
    before each span and one after the last.  [extract_original_segments]
    returns the non-empty gaps only, each joined with newlines, so each
    text has at most one segment more than it has tags.  When each gap of
    the template is empty exactly when the gap of the submission at the
    same position is, the two sequences have the same length and pairing
    the segments by position pairs each non-empty gap of the template with
    the gap of the submission at the same position. *)
Theorem segment_counts_agree_on_equal_gap_shape
  (assignment_text submission_text : string)
  (assignment_tags submission_tags : TagMap) :
  extract_tags assignment_text = Return assignment_tags ->
  extract_tags submission_text = Return submission_tags ->
  compare_tags assignment_tags submission_tags = Return tt ->
  map fst assignment_tags = map fst submission_tags
  /\ length (gaps assignment_text assignment_tags)
     = length (gaps submission_text submission_tags)
  /\ extract_original_segments assignment_text assignment_tags
     = map Py.join (filter nonempty (gaps assignment_text assignment_tags))
  /\ extract_original_segments submission_text submission_tags
     = map Py.join (filter nonempty (gaps submission_text submission_tags))
  /\ length (extract_original_segments assignment_text assignment_tags)
     <= S (length assignment_tags)
  /\ length (extract_original_segments submission_text submission_tags)
     <= S (length submission_tags)
  /\ (map nonempty (gaps assignment_text assignment_tags)
      = map nonempty (gaps submission_text submission_tags) ->
      length (extract_original_segments assignment_text assignment_tags)
      = length (extract_original_segments submission_text submission_tags)
      /\ combine (extract_original_segments assignment_text assignment_tags)
                 (extract_original_segments submission_text submission_tags)
         = map (fun p => (Py.join (fst p), Py.join (snd p)))
               (filter (fun p => nonempty (fst p))
                       (combine (gaps assignment_text assignment_tags)
                                (gaps submission_text submission_tags)))).
Proof.
  intros Ea Es C.
  apply extract_tags_well_formed in Ea, Es.
  pose proof (compare_tags_ok _ _ (wf_nodup _ _ Ea) (wf_nodup _ _ Es) C) as K.
  assert (L : length assignment_tags = length submission_tags).
  { rewrite <- (length_map fst assignment_tags), K. apply length_map. }
  assert (G : forall text tags,
             length (gaps text tags) = S (length tags)).
  { intros text tags. unfold gaps.
    now rewrite gaps_loop_length, spans_of_length. }
  assert (B : forall text tags,
             well_formed (markers text) tags ->
             length (extract_original_segments text tags)
             <= S (length tags)).
  { intros text tags W. rewrite (segments_are_gaps _ _ W), length_map.
    rewrite <- (G text tags). apply filter_length_le. }
  split; [exact K|]. split; [now rewrite !G, L|].
  split; [now apply segments_are_gaps|].
  split; [now apply segments_are_gaps|].
  split; [now apply B|]. split; [now apply B|].
  intros Shape.
  rewrite (segments_are_gaps _ _ Ea), (segments_are_gaps _ _ Es). split.
  - rewrite !length_map. now apply filter_length_map.
  - now apply paired_segments_are_paired_gaps.
Qed.

Lemma segment_counts_agree_on_equal_gap_shape_witness :
  combine (extract_original_segments tpl [("a", (2, 4))])
          (extract_original_segments tpl_submission [("a", (2, 5))])
  = map (fun p => (Py.join (fst p), Py.join (snd p)))
        (filter (fun p => nonempty (fst p))
                (combine (gaps tpl [("a", (2, 4))])
                         (gaps tpl_submission [("a", (2, 5))]))).
Proof.
  refine (proj2 (proj2 (proj2 (proj2 (proj2 (proj2 (proj2
            (segment_counts_agree_on_equal_gap_shape tpl tpl_submission
               [("a", (2, 4))] [("a", (2, 5))] _ _ _)))))) _));
    reflexivity.
Defined.

(** C2 as worded fails: the template has a line before its first marker,
    the submission starts with the marker; both maps pass [compare_tags]
    and the template has one segment where the submission has none. *)
Lemma segment_counts_can_differ :
  extract_tags (unlines ["header"; "// BEGIN-TODO(a)"; "// END-TODO(a)"])
  = Return [("a", (2, 3))]
  /\ extract_tags (unlines ["// BEGIN-TODO(a)"; "// END-TODO(a)"])
     = Return [("a", (1, 2))]
  /\ compare_tags [("a", (2, 3))] [("a", (1, 2))] = Return tt
  /\ extract_original_segments
       (unlines ["header"; "// BEGIN-TODO(a)"; "// END-TODO(a)"])
       [("a", (2, 3))] = ["header"]
  /\ extract_original_segments
       (unlines ["// BEGIN-TODO(a)"; "// END-TODO(a)"])
       [("a", (1, 2))] = []
  /\ length (extract_original_segments
               (unlines ["header"; "// BEGIN-TODO(a)"; "// END-TODO(a)"])
               [("a", (2, 3))])
     <> length (extract_original_segments
                  (unlines ["// BEGIN-TODO(a)"; "// END-TODO(a)"])
                  [("a", (1, 2))]).
Proof. repeat split. discriminate. Qed.

End SegmentCounts.

(** ** insert_submission_tags *)

Section Merge.

(** C1 fails on the code.  The pair below is accepted: both maps are
    extracted and pass [compare_tags].  The merge keeps the first line of
    the template's own payload ("TODO") and loses the first line of the
    submission's payload ("x"): [assignment_lines[assignment_begin]] is
    the line after the BEGIN marker, the marker itself having been copied
    with the text before it, and the slice of the submission starts one
    line late. *)
Theorem insert_submission_tags_off_by_one :
  extract_tags merge_template = Return [("a", (1, 3))]
  /\ extract_tags merge_submission = Return [("a", (1, 4))]
  /\ compare_tags [("a", (1, 3))] [("a", (1, 4))] = Return tt
  /\ insert_submission_tags merge_template merge_submission
       [("a", (1, 3))] [("a", (1, 4))]
     = Return (unlines ["// BEGIN-TODO(a)"; "TODO"; "y"; "// END-TODO(a)"])
  /\ insert_submission_tags merge_template merge_submission
       [("a", (1, 3))] [("a", (1, 4))]
     <> Return (unlines ["// BEGIN-TODO(a)"; "x"; "y"; "// END-TODO(a)"]).
Proof. repeat split. discriminate. Qed.

End Merge.

(** ** check_submission *)

Section Verdict.

Lemma check_filenames_raises nfc a s x :
  check_filenames nfc a s = Raise x -> exists e, x = ValueError e.
Proof.
  unfold check_filenames.
  destruct (negb (Py.endswith a "-assignment.dfy")).
  - intros [= <-]. eauto.
  - match goal with |- context [if ?c then _ else _] => destruct c end;
      [discriminate|].
    destruct nfc; [discriminate|]. intros [= <-]. eauto.
Qed.

Lemma check_order_raises pairs :
  forall i x, check_order i pairs = Raise x -> exists e, x = ValueError e.
Proof.
  induction pairs as [|[a b] r IH]; intros i x; simpl; [discriminate|].
  destruct (a =? b); [apply IH|]. intros [= <-]. eauto.
Qed.

Lemma compare_tags_raises a s x :
  compare_tags a s = Raise x -> exists e, x = ValueError e.
Proof.
  unfold compare_tags.
  destruct (filter _ (map fst a)); [|intros [= <-]; eauto].
  destruct (filter _ (map fst s)); [|intros [= <-]; eauto].
  apply check_order_raises.
Qed.

Lemma compare_segments_raises a s x :
  compare_segments a s = Raise x -> exists e, x = ValueError e.
Proof.
  intros H. apply compare_pairs_raises in H
    as (pre & u & v & post & _ & _ & _ & ->). eauto.
Qed.

Lemma rejected_not_accepted (e : value_error) : REJECTED e <> ACCEPTED.
Proof. unfold REJECTED, ACCEPTED. simpl. discriminate. Qed.

(** C8, as the code has it.  The filename check comes first: when it
    raises, the verdict is the REJECTED message with its text and no file is
    read.  When it returns, both files are read outside every [try], so an
    error of [read_text] is not turned into a verdict: it propagates.  With
    both files read, [check_submission] returns a verdict and raises
    nothing: the stages run in the order extraction from the assignment,
    extraction from the submission, tag comparison, segment comparison; the
    verdict is "The submission is REJECTED.", a newline and the text of the
    error of the first stage that raises, and "The submission is ACCEPTED."
    when none does.  The two are different, so the verdict is ACCEPTED
    exactly when every stage succeeds.  The texts of the errors are the
    f-strings of the source. *)
Theorem check_submission_verdict (no_filename_check : bool)
  (read_text : string -> result string)
  (assignment_file submission_file : string) :
  (forall e,
      check_filenames no_filename_check assignment_file submission_file
      = raise_value e ->
      check_submission no_filename_check read_text
        assignment_file submission_file
      = Return ("The submission is REJECTED." ++ Py.nl ++ message e))
  /\ (forall printed x,
         check_filenames no_filename_check assignment_file submission_file
         = Return printed ->
         read_text assignment_file = Raise x ->
         check_submission no_filename_check read_text
           assignment_file submission_file = Raise x)
  /\ (forall printed assignment_text x,
         check_filenames no_filename_check assignment_file submission_file
         = Return printed ->
         read_text assignment_file = Return assignment_text ->
         read_text submission_file = Raise x ->
         check_submission no_filename_check read_text
           assignment_file submission_file = Raise x)
  /\ (forall assignment_text submission_text,
         read_text assignment_file = Return assignment_text ->
         read_text submission_file = Return submission_text ->
         exists verdict,
           check_submission no_filename_check read_text
             assignment_file submission_file = Return verdict
           /\ ((exists e,
                  check_filenames no_filename_check assignment_file
                    submission_file = raise_value e
                  /\ verdict
                     = "The submission is REJECTED." ++ Py.nl ++ message e)
               \/ exists printed,
                   check_filenames no_filename_check assignment_file
                     submission_file = Return printed
                   /\ ((exists e,
                          extract_tags assignment_text = raise_value e
                          /\ verdict
                             = "The submission is REJECTED." ++ Py.nl
                               ++ message e)
                       \/ exists assignment_tags,
                           extract_tags assignment_text
                           = Return assignment_tags
                           /\ ((exists e,
                                  extract_tags submission_text = raise_value e
                                  /\ verdict
                                     = "The submission is REJECTED." ++ Py.nl
                                       ++ message e)
                               \/ exists submission_tags,
                                   extract_tags submission_text
                                   = Return submission_tags
                                   /\ ((exists e,
                                          compare_tags assignment_tags
                                            submission_tags = raise_value e
                                          /\ verdict
                                             = "The submission is REJECTED."
                                               ++ Py.nl ++ message e)
                                       \/ (compare_tags assignment_tags
                                             submission_tags = Return tt
                                           /\ ((exists e,
                                                  compare_segments
                                                    (extract_original_segments
                                                       assignment_text
                                                       assignment_tags)
                                                    (extract_original_segments
                                                       submission_text
                                                       submission_tags)
                                                  = raise_value e
                                                  /\ verdict
                                                     = "The submission is REJECTED."
                                                       ++ Py.nl ++ message e)
                                               \/ (compare_segments
                                                     (extract_original_segments
                                                        assignment_text
                                                        assignment_tags)
                                                     (extract_original_segments
                                                        submission_text
                                                        submission_tags)
                                                   = Return tt
                                                   /\ verdict
                                                      = "The submission is ACCEPTED."))))))))
  /\ (forall e,
         "The submission is REJECTED." ++ Py.nl ++ message e
         <> "The submission is ACCEPTED.")
  /\ (forall tag n,
         message (DuplicateBegin tag n)
         = "Duplicate BEGIN-TODO tag '" ++ tag ++ "' found at line "
           ++ Py.str_of_int n ++ "."
         /\ message (UnmatchedEnd tag n)
            = "END-TODO tag '" ++ tag ++ "' at line " ++ Py.str_of_int n
              ++ " has no matching BEGIN-TODO."
         /\ message (DuplicateEnd tag n)
            = "Duplicate END-TODO tag '" ++ tag ++ "' found at line "
              ++ Py.str_of_int n ++ "."
         /\ message (UnmatchedBegin tag n)
            = "BEGIN-TODO tag '" ++ tag ++ "' at line " ++ Py.str_of_int n
              ++ " has no matching END-TODO.")
  /\ (forall ct cb ce nt nb ne,
         message (OverlappingTags ct cb ce nt nb ne)
         = "Overlapping tags detected: '" ++ ct ++ "' (lines "
           ++ Py.str_of_int cb ++ "-" ++ Py.str_of_int ce ++ ") and '" ++ nt
           ++ "' (lines " ++ Py.str_of_int nb ++ "-" ++ Py.str_of_int ne
           ++ ").")
  /\ (forall l,
         message (MissingTags l)
         = "The following tags are missing in the submission: "
           ++ String.concat ", " l
         /\ message (ExtraTags l)
            = "The following extra tags are present in the submission: "
              ++ String.concat ", " l)
  /\ (forall i expected actual,
         message (OrderMismatch i expected actual)
         = "Tag mismatch at position " ++ Py.str_of_int (i + 1)
           ++ ": expected '" ++ expected ++ "' but found '" ++ actual ++ "'.")
  /\ (forall a s,
         message (ContentModified a s)
         = "The original text has been modified:" ++ Py.nl ++ a ++ Py.nl
           ++ "-------------------" ++ Py.nl ++ s)
  /\ message AssignmentSuffix
     = "The assignment file must end with '-assignment.dfy'."
  /\ (forall expected,
         message (SubmissionName expected)
         = "The submission file must be named '" ++ expected ++ "'.").
Proof.
  split.
  { intros e H. unfold check_submission. now rewrite H. }
  split.
  { intros printed x F R. unfold check_submission. rewrite F. cbn [try_stage].
    now rewrite R. }
  split.
  { intros printed assignment_text x F Ra R. unfold check_submission.
    rewrite F. cbn [try_stage]. rewrite Ra. cbn [bind]. now rewrite R. }
  split.
  2:{ split; [exact rejected_not_accepted|]. repeat split. }
  intros assignment_text submission_text Ra Rs.
  change (fun e => "The submission is REJECTED." ++ Py.nl ++ message e)
    with REJECTED.
  unfold check_submission.
  destruct (check_filenames no_filename_check assignment_file
              submission_file) as [printed|x] eqn:F.
  2:{ destruct (check_filenames_raises _ _ _ _ F) as (e & ->).
      exists (REJECTED e). split; [reflexivity|]. left. now exists e. }
  cbn [try_stage]. rewrite Ra, Rs. cbn [bind].
  destruct (extract_tags assignment_text) as [ta|x] eqn:Ea.
  2:{ destruct (extract_tags_raises _ _ Ea) as (e & ->).
      exists (REJECTED e). split; [reflexivity|]. right. exists printed.
      split; [reflexivity|]. left. now exists e. }
  destruct (extract_tags submission_text) as [ts|x] eqn:Es.
  2:{ destruct (extract_tags_raises _ _ Es) as (e & ->).
      exists (REJECTED e). split; [reflexivity|]. right. exists printed.
      split; [reflexivity|]. right. exists ta. split; [reflexivity|].
      left. now exists e. }
  cbn [bind try_stage].
  destruct (compare_tags ta ts) as [[]|x] eqn:C.
  2:{ destruct (compare_tags_raises _ _ _ C) as (e & ->).
      exists (REJECTED e). split; [reflexivity|]. right. exists printed.
      split; [reflexivity|]. right. exists ta. split; [reflexivity|].
      right. exists ts. split; [reflexivity|]. left. now exists e. }
  cbn [try_stage].
  destruct (compare_segments (extract_original_segments assignment_text ta)
              (extract_original_segments submission_text ts))
    as [[]|x] eqn:S.
  2:{ destruct (compare_segments_raises _ _ _ S) as (e & ->).
      exists (REJECTED e). split; [reflexivity|]. right. exists printed.
      split; [reflexivity|]. right. exists ta. split; [reflexivity|].
      right. exists ts. split; [reflexivity|]. right.
      split; [exact C|]. left. exists e. split; [exact S | reflexivity]. }
  exists ACCEPTED. split; [reflexivity|]. right. exists printed.
  split; [reflexivity|]. right. exists ta. split; [reflexivity|].
  right. exists ts. split; [reflexivity|]. right. split; [exact C|].
  right. split; [exact S | reflexivity].
Qed.

Lemma check_submission_verdict_witness :
  check_submission false homework_files
    "hw1-assignment.dfy" "old-submission.dfy"
  = Return ("The submission is REJECTED." ++ Py.nl
              ++ "The submission file must be named 'hw1-submission.dfy'.").
Proof.
  refine (proj1 (check_submission_verdict false homework_files
            "hw1-assignment.dfy" "old-submission.dfy")
            (SubmissionName "hw1-submission.dfy") _).
  reflexivity.
Defined.

(** C8 as worded fails: the names pass the filename check and the files
    cannot be read; [check_submission] returns no verdict, the error of
    [read_text] goes through. *)
Lemma check_submission_propagates_read_error :
  check_filenames false "hw1-assignment.dfy" "hw1-submission.dfy" = Return []
  /\ check_submission false no_files "hw1-assignment.dfy" "hw1-submission.dfy"
     = Raise OSError
  /\ ~ exists verdict,
        check_submission false no_files
          "hw1-assignment.dfy" "hw1-submission.dfy" = Return verdict.
Proof.
  split; [reflexivity|]. split; [reflexivity|].
  intros (verdict & H). discriminate.
Qed.

End Verdict.

(** * Further properties of the code *)

(** ** The order of the returned map *)

Section LineOrder.

Lemma begins_increasing (lines : list string) :
  forall n,
    StronglySorted (fun x y => snd x < snd y) (begins (markers_from n lines))
    /\ forall t k, In (t, k) (begins (markers_from n lines)) -> n <= k.
Proof.
  induction lines as [|l rest IH]; intros n; simpl.
  - split; [constructor | intros t k []].
  - destruct (IH (S n)) as [S B].
    destruct (Re.search l) as [[[] t]|]; simpl.
    + split.
      * constructor; [exact S|]. apply Forall_forall. intros [t' k] Hin.
        apply B in Hin. simpl. lia.
      * intros t' k [[= <- <-]|Hin]; [lia|]. apply B in Hin. lia.
    + split; [exact S|]. intros t' k Hin. apply B in Hin. lia.
    + split; [exact S|]. intros t' k Hin. apply B in Hin. lia.
Qed.

Lemma StronglySorted_map_inv {A B} (f : A -> B) (R : B -> B -> Prop) l :
  StronglySorted R (map f l) -> StronglySorted (fun x y => R (f x) (f y)) l.
Proof.
  induction l as [|x l IH]; simpl; intros H; [constructor|].
  apply StronglySorted_inv in H as [H F]. constructor; [auto|].
  rewrite Forall_map in F. exact F.
Qed.

Lemma StronglySorted_map {A B} (f : A -> B) (R : B -> B -> Prop) l :
  StronglySorted (fun x y => R (f x) (f y)) l -> StronglySorted R (map f l).
Proof.
  induction 1 as [|x l S IH F]; simpl; constructor; auto.
  now rewrite Forall_map.
Qed.

Lemma sorted_fixed {A} (key : A -> nat * nat) (l : list A) :
  StronglySorted (fun x y => fst (key x) < fst (key y)) l ->
  Py.sorted key l = l.
Proof.
  induction 1 as [|x l S IH F]; simpl; [reflexivity|].
  rewrite IH. destruct l as [|y l']; [reflexivity|]. simpl.
  inversion F as [|? ? Hxy _]; subst. unfold Py.tuple_le.
  apply Nat.ltb_lt in Hxy. now rewrite Hxy.
Qed.

Lemma well_formed_line_order (text : string) (tags : TagMap) :
  well_formed (markers text) tags -> in_line_order tags.
Proof.
  intros W. unfold in_line_order.
  apply (StronglySorted_map_inv begin_of (fun x y => snd x < snd y)).
  rewrite (wf_begins _ _ W). apply begins_increasing.
Qed.

(** X4: the entries of the map [extract_tags] returns are in the order of
    their BEGIN lines, each span ends before the next one begins and the
    last one ends within the document; so both calls of [sorted] leave the
    order of the map as it is. *)
Theorem extract_tags_map_in_line_order (text : string) (tags : TagMap) :
  extract_tags text = Return tags ->
  in_line_order tags
  /\ Py.sorted snd tags = tags
  /\ spans_of tags = map snd tags
  /\ chained (length (Py.splitlines text)) 0 (map snd tags).
Proof.
  intros E. apply extract_tags_well_formed in E. rename E into W.
  pose proof (well_formed_line_order _ _ W) as L.
  assert (S : spans_of tags = map snd tags).
  { unfold spans_of. apply sorted_fixed. apply StronglySorted_map. exact L. }
  repeat split; auto.
  - now apply sorted_fixed.
  - rewrite <- S. now apply chained_of_well_formed.
Qed.

Lemma extract_tags_map_in_line_order_witness :
  Py.sorted snd [("b", (2, 4)); ("a", (5, 6))] = [("b", (2, 4)); ("a", (5, 6))].
Proof.
  refine (proj1 (proj2 (extract_tags_map_in_line_order
            (unlines ["x"; "// BEGIN-TODO(b)"; "y"; "// END-TODO(b)";
                      "// BEGIN-TODO(a)"; "// END-TODO(a)"])
            [("b", (2, 4)); ("a", (5, 6))] _))).
  reflexivity.
Defined.

(** X3: every entry of the returned map lies within the document,
    [1 <= begin_line < end_line <= len(lines)], and its tag holds no
    closing parenthesis and no newline. *)
Theorem extract_tags_entries_in_range (text : string) (tags : TagMap) :
  extract_tags text = Return tags ->
  forall t b e,
    In (t, (b, e)) tags ->
    1 <= b /\ b < e /\ e <= length (Py.splitlines text)
    /\ string_forall not_rparen t = true
    /\ string_forall not_newline t = true.
Proof.
  intros E t b e Hin. apply extract_tags_well_formed in E.
  destruct (in_entry_span _ _ E _ _ _ Hin) as [[Hb He] Hlt].
  pose proof (marker_at_range _ _ _ Hb). pose proof (marker_at_range _ _ _ He).
  repeat split; try lia.
  - destruct b as [|i]; [discriminate|]. simpl in Hb.
    destruct (nth_error (Py.splitlines text) i); [|discriminate].
    apply search_sound in Hb as [(pre & ws & post & _ & _ & G) _]. exact G.
  - destruct b as [|i]; [discriminate|]. simpl in Hb.
    destruct (nth_error (Py.splitlines text) i); [|discriminate].
    now apply search_sound in Hb as [_ N].
Qed.

Lemma extract_tags_entries_in_range_witness :
  1 <= 2 /\ 2 < 4 /\ 4 <= length (Py.splitlines tpl)
  /\ string_forall not_rparen "a" = true
  /\ string_forall not_newline "a" = true.
Proof.
  refine (extract_tags_entries_in_range tpl [("a", (2, 4))] _ "a" 2 4 _).
  - reflexivity.
  - now left.
Defined.

Lemma scan_lines_no_marker (lines : list string) :
  Forall (fun line => is_marker line = false) lines ->
  forall tags n, scan_lines tags n lines = Return tags.
Proof.
  induction 1 as [|l rest Hl F IH]; intros tags n; simpl; [reflexivity|].
  unfold scan_line. unfold is_marker in Hl.
  destruct (Re.search l); [discriminate|]. simpl. apply IH.
Qed.

(** X5: a document without marker lines has the empty map, and its segments
    are the whole document as one segment, or nothing when it has no
    line. *)
Theorem extract_tags_without_markers (text : string) :
  Forall (fun line => is_marker line = false) (Py.splitlines text) ->
  extract_tags text = Return []
  /\ extract_original_segments text []
     = match Py.splitlines text with
       | [] => []
       | _ :: _ => [Py.join (Py.splitlines text)]
       end.
Proof.
  intros F. split.
  - unfold extract_tags. now rewrite (scan_lines_no_marker _ F).
  - unfold extract_original_segments. simpl.
    now destruct (Py.splitlines text).
Qed.

Lemma extract_tags_without_markers_witness :
  extract_tags (unlines ["method M()"; "{"; "}"]) = Return [].
Proof.
  refine (proj1 (extract_tags_without_markers
                   (unlines ["method M()"; "{"; "}"]) _)).
  repeat constructor.
Defined.

End LineOrder.

(** ** What each error of extract_tags means *)

Section ExtractErrors.

Lemma scan_lines_raises_at (lines : list string) :
  forall tags n x,
    scan_lines tags n lines = Raise x ->
    exists pre line rest tags' ty t,
      lines = (pre ++ line :: rest)%list
      /\ scan_lines tags n pre = Return tags'
      /\ Re.search line = Some (ty, t)
      /\ record_marker tags' (n + length pre) ty t = Raise x.
Proof.
  induction lines as [|l rest IH]; intros tags n x; simpl; [discriminate|].
  unfold scan_line at 1.
  destruct (Re.search l) as [[ty t]|] eqn:E; simpl.
  - destruct (record_marker tags n ty t) as [tags1|x1] eqn:R; simpl.
    + intros H.
      destruct (IH _ _ _ H) as (pre & line & rest' & tags' & ty' & t' & -> & Sc & Hs & Hr).
      exists (l :: pre), line, rest', tags', ty', t'. simpl.
      unfold scan_line. rewrite E, R. simpl.
      replace (n + S (length pre)) with (S n + length pre) by lia. auto.
    + intros [= <-]. exists [], l, rest, tags, ty, t. simpl.
      rewrite Nat.add_0_r. auto.
  - intros H.
    destruct (IH _ _ _ H) as (pre & line & rest' & tags' & ty' & t' & -> & Sc & Hs & Hr).
    exists (l :: pre), line, rest', tags', ty', t'. simpl.
    unfold scan_line. rewrite E. simpl.
    replace (n + S (length pre)) with (S n + length pre) by lia. auto.
Qed.

Lemma prefix_marker (text : string) (pre rest : list string) k m :
  Py.splitlines text = (pre ++ rest)%list ->
  In (k, m) (markers_from 1 pre)
  <-> marker_at text k = Some m /\ k <= length pre.
Proof.
  intros L. rewrite markers_from_in. unfold marker_at. rewrite L. split.
  - intros (Hk & line & Hn & Hs). destruct k as [|i]; [lia|].
    replace (S i - 1) with i in Hn by lia.
    assert (i < length pre) by (apply nth_error_Some; congruence).
    rewrite nth_error_app1 by lia. rewrite Hn. split; [exact Hs | lia].
  - intros [H Hk]. destruct k as [|i]; [discriminate|].
    rewrite nth_error_app1 in H by lia.
    destruct (nth_error pre i) as [line|] eqn:Hn; [|discriminate].
    split; [lia|]. exists line. replace (S i - 1) with i by lia. auto.
Qed.

Lemma marker_at_split (text : string) (pre rest : list string) line :
  Py.splitlines text = (pre ++ line :: rest)%list ->
  marker_at text (1 + length pre) = Re.search line.
Proof.
  intros L. simpl. rewrite L, nth_error_app2 by lia.
  now rewrite Nat.sub_diag.
Qed.

(** The stages of [extract_tags], read off a result. *)
Lemma extract_tags_stages (text : string) (r : result TagMap) :
  extract_tags text = r ->
  (exists x, scan_lines [] 1 (Py.splitlines text) = Raise x /\ r = Raise x)
  \/ exists tags0,
      scan_lines [] 1 (Py.splitlines text) = Return tags0
      /\ ((exists x, check_closed tags0 = Raise x /\ r = Raise x)
          \/ exists tags,
              check_closed tags0 = Return tags
              /\ ((exists x, check_overlap (Py.sorted snd tags) = Raise x
                             /\ r = Raise x)
                  \/ (check_overlap (Py.sorted snd tags) = Return tt
                      /\ r = Return tags))).
Proof.
  unfold extract_tags. intros <-.
  destruct (scan_lines [] 1 (Py.splitlines text)) as [tags0|x0]; simpl;
    [right; exists tags0; split; [reflexivity|] | left; eauto].
  destruct (check_closed tags0) as [tags|x1]; simpl;
    [right; exists tags; split; [reflexivity|] | left; eauto].
  destruct (check_overlap (Py.sorted snd tags)) as [[]|x2]; simpl;
    [right; auto | left; eauto].
Qed.

Lemma paired_of_scan (text : string) (tags0 : open_tags) (tags : TagMap) :
  scan_lines [] 1 (Py.splitlines text) = Return tags0 ->
  check_closed tags0 = Return tags ->
  paired (markers text) tags.
Proof.
  intros Sc C.
  apply (scan_lines_inv _ 1 [] []) in Sc; [|apply scan_inv_init].
  simpl in Sc. fold (markers text) in Sc.
  apply check_closed_ok in C. subst tags0. destruct Sc as [A B E D].
  rewrite begin_of_opened in A. rewrite keys_opened in B.
  split; auto.
  - intros n t. rewrite E. split.
    + intros (b & H). rewrite dict_get_opened in H.
      destruct (dict_get tags t) as [[b' e']|]; [|discriminate].
      simpl in H. injection H as <- <-. eauto.
    + intros (b & H). exists b. now rewrite dict_get_opened, H.
  - intros t b e Hin. apply dict_in_get in Hin; [|exact B].
    destruct (D t b (Some e)) as [_ H].
    + rewrite dict_get_opened, Hin. reflexivity.
    + now apply H.
Qed.

Lemma paired_span (text : string) (tags : TagMap) t b e :
  paired (markers text) tags -> In (t, (b, e)) tags -> is_span text t b e.
Proof.
  intros P Hin. split.
  - apply markers_in, in_begins. rewrite <- (pr_begins _ _ P).
    apply in_map_iff. now exists (t, (b, e)).
  - apply markers_in, (pr_ends _ _ P). exists b.
    apply dict_in_get; [apply (pr_nodup _ _ P) | exact Hin].
Qed.

Lemma tuple_le_total (p q : nat * nat) :
  Py.tuple_le p q = false -> Py.tuple_le q p = true.
Proof.
  unfold Py.tuple_le. destruct p as [a b], q as [c d]. simpl.
  destruct (Nat.ltb_spec a c), (Nat.ltb_spec c a), (Nat.eqb_spec a c),
    (Nat.eqb_spec c a), (Nat.leb_spec b d), (Nat.leb_spec d b);
    simpl; try reflexivity; try discriminate; lia.
Qed.

Lemma insert_sorted_Sorted {A} (key : A -> nat * nat) (x : A) (l : list A) :
  Sorted (fun a b => Py.tuple_le (key a) (key b) = true) l ->
  Sorted (fun a b => Py.tuple_le (key a) (key b) = true)
         (Py.insert_sorted key x l).
Proof.
  induction 1 as [|y l Srt IH H]; simpl.
  - repeat constructor.
  - destruct (Py.tuple_le (key x) (key y)) eqn:E.
    + constructor; [now constructor | now constructor].
    + constructor; [exact IH|].
      destruct l as [|z l']; simpl.
      * constructor. now apply tuple_le_total.
      * destruct (Py.tuple_le (key x) (key z)); constructor.
        -- now apply tuple_le_total.
        -- now inversion H.
Qed.

Lemma sorted_Sorted {A} (key : A -> nat * nat) (l : list A) :
  Sorted (fun a b => Py.tuple_le (key a) (key b) = true) (Py.sorted key l).
Proof.
  induction l as [|x l IH]; simpl; [constructor|].
  now apply insert_sorted_Sorted.
Qed.

Lemma Sorted_adjacent {A} (R : A -> A -> Prop) (l1 l2 : list A) a b :
  Sorted R (l1 ++ a :: b :: l2) -> R a b.
Proof.
  induction l1 as [|x l1 IH]; simpl; intros Srt.
  - inversion Srt as [|? ? _ H]; subst. now inversion H.
  - inversion Srt; subst. auto.
Qed.

Lemma check_overlap_raises_at (l : TagMap) x :
  check_overlap l = Raise x ->
  exists l1 ct cb ce nt nb ne l2,
    l = (l1 ++ (ct, (cb, ce)) :: (nt, (nb, ne)) :: l2)%list
    /\ nb < ce
    /\ x = ValueError (OverlappingTags ct cb ce nt nb ne).
Proof.
  induction l as [|[ct [cb ce]] l IH]; simpl; [discriminate|].
  destruct l as [|[nt [nb ne]] l']; [discriminate|].
  destruct (Nat.ltb_spec nb ce) as [Lt|Ge].
  - intros [= <-]. exists [], ct, cb, ce, nt, nb, ne, l'. auto.
  - intros H.
    destruct (IH H) as (l1 & ct' & cb' & ce' & nt' & nb' & ne' & l2 & E & Lt & ->).
    exists ((ct, (cb, ce)) :: l1), ct', cb', ce', nt', nb', ne', l2.
    simpl. rewrite E. auto.
Qed.

(** The cases of a raising [extract_tags]. *)
Lemma extract_tags_raise_cases (text : string) (x : exception) :
  extract_tags text = Raise x ->
  (exists t n, x = ValueError (DuplicateBegin t n)
               /\ marker_at text n = Some (BEGIN, t)
               /\ exists n', n' < n /\ marker_at text n' = Some (BEGIN, t))
  \/ (exists t n, x = ValueError (UnmatchedEnd t n)
                  /\ marker_at text n = Some (END, t)
                  /\ forall n', n' < n -> marker_at text n' <> Some (BEGIN, t))
  \/ (exists t n, x = ValueError (DuplicateEnd t n)
                  /\ marker_at text n = Some (END, t)
                  /\ exists n', n' < n /\ marker_at text n' = Some (END, t))
  \/ (exists t b, x = ValueError (UnmatchedBegin t b)
                  /\ marker_at text b = Some (BEGIN, t)
                  /\ forall e, marker_at text e <> Some (END, t))
  \/ (exists ct cb ce nt nb ne,
         x = ValueError (OverlappingTags ct cb ce nt nb ne)
         /\ is_span text ct cb ce /\ is_span text nt nb ne
         /\ cb < nb /\ nb < ce).
Proof.
  intros E.
  destruct (extract_tags_stages _ _ E)
    as [(x0 & Sc & [= <-])|(tags0 & Sc & [(x1 & C & [= <-])|
         (tags & C & [(x2 & O & [= <-])|[_ [=]]])])].
  - (* the scanning loop *)
    destruct (scan_lines_raises_at _ _ _ _ Sc)
      as (pre & line & rest & tags' & ty & t & L & Sp & Hs & R).
    pose proof (scan_lines_inv _ 1 [] [] tags' (scan_inv_init 1) Sp) as Inv.
    simpl in Inv. destruct Inv as [A B Ends D].
    pose proof (marker_at_split text pre rest line L) as Here.
    rewrite Hs in Here. simpl in R.
    assert (Before : forall k m, In (k, m) (markers_from 1 pre)
                                 <-> marker_at text k = Some m
                                     /\ k <= length pre)
      by (intros k m; now apply prefix_marker with (rest := line :: rest)).
    destruct ty; simpl in R.
    + destruct (dict_mem tags' t) eqn:M; [|discriminate].
      injection R as <-. left. exists t, (S (length pre)).
      split; [reflexivity|]. split; [exact Here|].
      unfold dict_mem in M.
      destruct (dict_get tags' t) as [[b oe]|] eqn:G; [|discriminate].
      apply dict_get_in in G. apply (in_map begin_of) in G.
      rewrite A in G. unfold begin_of in G. simpl in G.
      apply in_begins, Before in G as [G Hb]. exists b. split; [lia | exact G].
    + destruct (dict_get tags' t) as [[b [e|]]|] eqn:G; try discriminate;
        injection R as <-.
      * right; right; left. exists t, (S (length pre)).
        split; [reflexivity|]. split; [exact Here|].
        assert (Hin : In (e, (END, t)) (markers_from 1 pre))
          by (apply Ends; eauto).
        apply Before in Hin as [He Hle]. exists e. split; [lia | exact He].
      * right; left. exists t, (S (length pre)).
        split; [reflexivity|]. split; [exact Here|].
        intros n' Hn' Hb.
        assert (Hin : In (n', (BEGIN, t)) (markers_from 1 pre))
          by (apply Before; split; [exact Hb | lia]).
        apply in_begins in Hin. rewrite <- A in Hin.
        apply in_map_iff in Hin as ([t' [b oe]] & [= -> ->] & Hin).
        apply (in_map fst) in Hin. simpl in Hin.
        now apply dict_get_none in G.
  - (* the loop over unclosed tags *)
    apply check_closed_raises in C as (t & b & Hin & ->).
    pose proof (scan_lines_inv _ 1 [] [] tags0 (scan_inv_init 1) Sc) as Inv.
    simpl in Inv. fold (markers text) in Inv. destruct Inv as [A B Ends D].
    right; right; right; left. exists t, b. split; [reflexivity|]. split.
    + apply markers_in, in_begins. rewrite <- A. apply in_map_iff.
      now exists (t, (b, None)).
    + intros e He. apply markers_in, Ends in He as (b' & G).
      apply dict_in_get in Hin; [|exact B]. congruence.
  - (* the overlap check *)
    pose proof (paired_of_scan _ _ _ Sc C) as P.
    destruct (check_overlap_raises_at _ _ O)
      as (l1 & ct & cb & ce & nt & nb & ne & l2 & L & Lt & ->).
    right; right; right; right. exists ct, cb, ce, nt, nb, ne.
    assert (I1 : In (ct, (cb, ce)) tags).
    { apply (sorted_in snd). rewrite L. apply in_elt. }
    assert (I2 : In (nt, (nb, ne)) tags).
    { apply (sorted_in snd). rewrite L. apply in_or_app. right. right.
      now left. }
    pose proof (paired_span _ _ _ _ _ P I1) as S1.
    pose proof (paired_span _ _ _ _ _ P I2) as S2.
    repeat split; try apply S1; try apply S2; try exact Lt.
    pose proof (sorted_Sorted snd tags) as Srt. rewrite L in Srt.
    apply Sorted_adjacent in Srt. unfold Py.tuple_le in Srt. simpl in Srt.
    apply orb_true_iff in Srt as [H|H]; [now apply Nat.ltb_lt in H|].
    apply andb_true_iff in H as [H _]. apply Nat.eqb_eq in H. subst nb.
    exfalso. destruct S1 as [B1 _], S2 as [B2 _]. rewrite B1 in B2.
    injection B2 as <-.
    assert (ND : NoDup (map fst (Py.sorted snd tags))).
    { eapply Permutation_NoDup; [|apply (pr_nodup _ _ P)].
      apply Permutation_map. symmetry. apply sorted_perm. }
    rewrite L, map_app in ND. simpl in ND.
    apply NoDup_app_remove_l in ND. inversion ND as [|? ? Hnot _]; subst.
    apply Hnot. now left.
Qed.

(** X1: whatever [extract_tags] raises is one of its five errors, and each
    names a real defect of the document at the reported line: a second BEGIN
    of a tag that has one on an earlier line; an END with no BEGIN of its
    tag on an earlier line; a second END of a tag; a BEGIN whose tag has no
    END anywhere; two spans of the document, the first beginning before the
    second and ending after the second begins. *)
Theorem extract_tags_error_meaning (text : string) (x : exception) :
  extract_tags text = Raise x ->
  (exists t n, x = ValueError (DuplicateBegin t n)
               /\ marker_at text n = Some (BEGIN, t)
               /\ exists n', n' < n /\ marker_at text n' = Some (BEGIN, t))
  \/ (exists t n, x = ValueError (UnmatchedEnd t n)
                  /\ marker_at text n = Some (END, t)
                  /\ forall n', n' < n -> marker_at text n' <> Some (BEGIN, t))
  \/ (exists t n, x = ValueError (DuplicateEnd t n)
                  /\ marker_at text n = Some (END, t)
                  /\ exists n', n' < n /\ marker_at text n' = Some (END, t))
  \/ (exists t b, x = ValueError (UnmatchedBegin t b)
                  /\ marker_at text b = Some (BEGIN, t)
                  /\ forall e, marker_at text e <> Some (END, t))
  \/ (exists ct cb ce nt nb ne,
         x = ValueError (OverlappingTags ct cb ce nt nb ne)
         /\ is_span text ct cb ce /\ is_span text nt nb ne
         /\ cb < nb /\ nb < ce).
Proof. apply extract_tags_raise_cases. Qed.

Lemma extract_tags_error_meaning_witness :
  (exists t n, ValueError (UnmatchedEnd "a" 1) = ValueError (DuplicateBegin t n)
               /\ marker_at "// END-TODO(a)" n = Some (BEGIN, t)
               /\ exists n', n' < n
                             /\ marker_at "// END-TODO(a)" n' = Some (BEGIN, t))
  \/ (exists t n, ValueError (UnmatchedEnd "a" 1) = ValueError (UnmatchedEnd t n)
                  /\ marker_at "// END-TODO(a)" n = Some (END, t)
                  /\ forall n', n' < n ->
                                marker_at "// END-TODO(a)" n' <> Some (BEGIN, t))
  \/ (exists t n, ValueError (UnmatchedEnd "a" 1) = ValueError (DuplicateEnd t n)
                  /\ marker_at "// END-TODO(a)" n = Some (END, t)
                  /\ exists n', n' < n
                                /\ marker_at "// END-TODO(a)" n' = Some (END, t))
  \/ (exists t b, ValueError (UnmatchedEnd "a" 1) = ValueError (UnmatchedBegin t b)
                  /\ marker_at "// END-TODO(a)" b = Some (BEGIN, t)
                  /\ forall e, marker_at "// END-TODO(a)" e <> Some (END, t))
  \/ (exists ct cb ce nt nb ne,
         ValueError (UnmatchedEnd "a" 1)
         = ValueError (OverlappingTags ct cb ce nt nb ne)
         /\ is_span "// END-TODO(a)" ct cb ce
         /\ is_span "// END-TODO(a)" nt nb ne
         /\ cb < nb /\ nb < ce).
Proof.
  apply (extract_tags_error_meaning "// END-TODO(a)"). reflexivity.
Defined.

End ExtractErrors.

(** ** Success of extract_tags *)

Section ExtractSuccess.

Lemma well_formed_not_malformed (text : string) (tags : TagMap) :
  well_formed (markers text) tags -> ~ malformed text.
Proof.
  intros W Bad.
  destruct Bad as [(b & t & Hb & No)|[(e & t & He & No)|
                   [(ty & t & n1 & n2 & Ne & M1 & M2)|
                    (t1 & b1 & e1 & t2 & b2 & e2 & S1 & S2 & Ne & Le & Ov)]]].
  - destruct (begin_entry _ _ W _ _ Hb) as (e & G).
    destruct (entry_span _ _ W _ _ _ G) as [[_ He] _]. now apply (No e).
  - destruct (end_entry _ _ W _ _ He) as (b & G).
    destruct (entry_span _ _ W _ _ _ G) as [[Hb _] Hlt]. now apply (No b).
  - destruct ty.
    + destruct (begin_entry _ _ W _ _ M1) as (x1 & G1).
      destruct (begin_entry _ _ W _ _ M2) as (x2 & G2). congruence.
    + destruct (end_entry _ _ W _ _ M1) as (x1 & G1).
      destruct (end_entry _ _ W _ _ M2) as (x2 & G2). congruence.
  - pose proof (span_entry _ _ W _ _ _ S1) as I1.
    pose proof (span_entry _ _ W _ _ _ S2) as I2.
    unfold Py.tuple_le in Le. simpl in Le.
    apply orb_true_iff in Le as [Lt|Eq].
    + apply Nat.ltb_lt in Lt.
      pose proof (entries_in_order _ _ W _ _ _ _ _ _ I1 I2 Lt). lia.
    + apply andb_true_iff in Eq as [Eq _]. apply Nat.eqb_eq in Eq.
      subst b2. destruct S1 as [B1 _], S2 as [B2 _].
      rewrite B1 in B2. injection B2 as <-.
      apply dict_in_get in I1, I2; try apply (wf_nodup _ _ W).
      rewrite I1 in I2. injection I2 as <-. now apply Ne.
Qed.

(** X2: [extract_tags] returns a map exactly for the documents that have
    none of the four defects: no unmatched BEGIN, no unmatched END, no
    duplicated tag and no overlapping spans. *)
Theorem extract_tags_returns_iff_well_paired (text : string) :
  (exists tags, extract_tags text = Return tags) <-> ~ malformed text.
Proof.
  split.
  - intros (tags & E). apply extract_tags_well_formed in E.
    now apply well_formed_not_malformed in E.
  - intros Good. destruct (extract_tags text) as [tags|x] eqn:E; [eauto|].
    exfalso. apply Good. unfold malformed.
    destruct (extract_tags_raise_cases _ _ E)
      as [(t & n & _ & Hn & n' & Lt & Hn')|
          [(t & n & _ & Hn & No)|
           [(t & n & _ & Hn & n' & Lt & Hn')|
            [(t & b & _ & Hb & No)|
             (ct & cb & ce & nt & nb & ne & _ & S1 & S2 & Lt1 & Lt2)]]]].
    + right; right; left. exists BEGIN, t, n', n. repeat split; auto. lia.
    + right; left. exists n, t. auto.
    + right; right; left. exists END, t, n', n. repeat split; auto. lia.
    + left. exists b, t. auto.
    + right; right; right. exists ct, cb, ce, nt, nb, ne.
      repeat split; try apply S1; try apply S2; auto.
      * intros [= _ Hb _]. lia.
      * unfold Py.tuple_le. simpl. apply Nat.ltb_lt in Lt1. now rewrite Lt1.
Qed.

End ExtractSuccess.

(** ** The verdicts of compare_tags *)

Section CompareTagsVerdicts.

Lemma filter_none {A} (f : A -> bool) (l : list A) :
  (forall x, In x l -> f x = false) -> filter f l = [].
Proof.
  induction l as [|x l IH]; simpl; intros H; [reflexivity|].
  rewrite (H x) by now left. apply IH. intros y Hy. apply H. now right.
Qed.

Lemma absent_tags (present l : list string) :
  forall t,
    In t (filter (fun tag => negb (list_mem tag present)) l)
    <-> In t l /\ ~ In t present.
Proof.
  intros t. rewrite filter_In, negb_true_iff. split.
  - intros [H N]. split; [exact H|]. intros Hp.
    apply list_mem_in in Hp. congruence.
  - intros [H N]. split; [exact H|].
    destruct (list_mem t present) eqn:M; [|reflexivity].
    apply list_mem_in in M. contradiction.
Qed.

Lemma check_order_same (l : list string) :
  forall i, check_order i (combine l l) = Return tt.
Proof.
  induction l as [|x l IH]; intros i; simpl; [reflexivity|].
  now rewrite String.eqb_refl.
Qed.

Lemma check_order_first (pre ra rs : list string) x y :
  x <> y ->
  forall i,
    check_order i (combine (pre ++ x :: ra) (pre ++ y :: rs))
    = raise_value (OrderMismatch (i + length pre) x y).
Proof.
  intros N. induction pre as [|z pre IH]; intros i; simpl.
  - destruct (String.eqb_spec x y); [contradiction|].
    now rewrite Nat.add_0_r.
  - rewrite String.eqb_refl, IH.
    now replace (S i + length pre) with (i + S (length pre)) by lia.
Qed.

(** X6: on maps with one entry per tag, [compare_tags] returns exactly when
    both maps list the same tags in the same order. *)
Theorem compare_tags_returns_iff_same_order (a s : TagMap) :
  NoDup (map fst a) -> NoDup (map fst s) ->
  compare_tags a s = Return tt <-> map fst a = map fst s.
Proof.
  intros Na Ns. split; [now apply compare_tags_ok|].
  intros E. unfold compare_tags. rewrite E.
  rewrite filter_none.
  - apply check_order_same.
  - intros t Ht. apply list_mem_in in Ht. now rewrite Ht.
Qed.

Lemma compare_tags_returns_iff_same_order_witness :
  compare_tags [("a", (1, 2)); ("b", (3, 5))] [("a", (2, 6)); ("b", (7, 8))]
  = Return tt
  <-> map fst [("a", (1, 2)); ("b", (3, 5))]
      = map fst [("a", (2, 6)); ("b", (7, 8))].
Proof.
  apply compare_tags_returns_iff_same_order; simpl;
    repeat constructor; simpl; intuition discriminate.
Defined.

(** X7: when a tag of the assignment is absent from the submission,
    [compare_tags] raises the error of missing tags, whatever else is wrong;
    the error lists the absent tags of the assignment, all of them and
    nothing else. *)
Theorem compare_tags_reports_missing (a s : TagMap) (t : string) :
  In t (map fst a) -> ~ In t (map fst s) ->
  exists missing,
    compare_tags a s = raise_value (MissingTags missing)
    /\ forall t', In t' missing <-> In t' (map fst a) /\ ~ In t' (map fst s).
Proof.
  intros Ha Hs.
  exists (filter (fun tag => negb (list_mem tag (map fst s))) (map fst a)).
  split; [|apply absent_tags].
  unfold compare_tags.
  destruct (filter (fun tag => negb (list_mem tag (map fst s))) (map fst a))
    as [|t0 l] eqn:F; [|reflexivity].
  exfalso. assert (H : In t []); [|exact H].
  rewrite <- F. apply absent_tags. auto.
Qed.

Lemma compare_tags_reports_missing_witness :
  exists missing,
    compare_tags [("a", (1, 2)); ("b", (3, 5))] [("c", (1, 2)); ("a", (3, 4))]
    = raise_value (MissingTags missing)
    /\ forall t', In t' missing
                  <-> In t' (map fst [("a", (1, 2)); ("b", (3, 5))])
                      /\ ~ In t' (map fst [("c", (1, 2)); ("a", (3, 4))]).
Proof.
  apply (compare_tags_reports_missing _ _ "b"); simpl.
  - right. now left.
  - intuition discriminate.
Defined.

(** X8: when every tag of the assignment is in the submission and the
    submission has a tag the assignment lacks, [compare_tags] raises the
    error of extra tags, listing exactly the tags of the submission that are
    not in the assignment. *)
Theorem compare_tags_reports_extra (a s : TagMap) (t : string) :
  incl (map fst a) (map fst s) ->
  In t (map fst s) -> ~ In t (map fst a) ->
  exists extra,
    compare_tags a s = raise_value (ExtraTags extra)
    /\ forall t', In t' extra <-> In t' (map fst s) /\ ~ In t' (map fst a).
Proof.
  intros Inc Hs Ha.
  exists (filter (fun tag => negb (list_mem tag (map fst a))) (map fst s)).
  split; [|apply absent_tags].
  unfold compare_tags. rewrite filter_none.
  - destruct (filter (fun tag => negb (list_mem tag (map fst a))) (map fst s))
      as [|t0 l] eqn:F; [|reflexivity].
    exfalso. assert (H : In t []); [|exact H].
    rewrite <- F. apply absent_tags. auto.
  - intros t' Ht'. apply Inc, list_mem_in in Ht'. now rewrite Ht'.
Qed.

Lemma compare_tags_reports_extra_witness :
  exists extra,
    compare_tags [("a", (1, 2))] [("c", (1, 2)); ("a", (3, 4))]
    = raise_value (ExtraTags extra)
    /\ forall t', In t' extra
                  <-> In t' (map fst [("c", (1, 2)); ("a", (3, 4))])
                      /\ ~ In t' (map fst [("a", (1, 2))]).
Proof.
  apply (compare_tags_reports_extra _ _ "c"); simpl.
  - intros x [<-|[]]. right. now left.
  - now left.
  - intuition discriminate.
Defined.

(** X9: when both maps hold the same tags and their orders first differ
    after [pre], where the assignment has [x] and the submission [y],
    [compare_tags] raises the order error for that position with both tags;
    its message counts positions from 1. *)
Theorem compare_tags_reports_first_mismatch (a s : TagMap)
  (pre ra rs : list string) (x y : string) :
  incl (map fst a) (map fst s) -> incl (map fst s) (map fst a) ->
  map fst a = (pre ++ x :: ra)%list -> map fst s = (pre ++ y :: rs)%list ->
  x <> y ->
  compare_tags a s = raise_value (OrderMismatch (length pre) x y)
  /\ message (OrderMismatch (length pre) x y)
     = "Tag mismatch at position " ++ Py.str_of_int (length pre + 1)
       ++ ": expected '" ++ x ++ "' but found '" ++ y ++ "'.".
Proof.
  intros Ias Isa Ea Es N. split; [|reflexivity].
  unfold compare_tags. rewrite !filter_none.
  - rewrite Ea, Es. now rewrite check_order_first.
  - intros t Ht. apply Isa, list_mem_in in Ht. now rewrite Ht.
  - intros t Ht. apply Ias, list_mem_in in Ht. now rewrite Ht.
Qed.

Lemma compare_tags_reports_first_mismatch_witness :
  compare_tags [("A", (1, 2)); ("B", (3, 4))] [("B", (1, 2)); ("A", (3, 4))]
  = raise_value (OrderMismatch 0 "A" "B")
  /\ message (OrderMismatch 0 "A" "B")
     = "Tag mismatch at position 1: expected 'A' but found 'B'.".
Proof.
  apply (compare_tags_reports_first_mismatch
           [("A", (1, 2)); ("B", (3, 4))] [("B", (1, 2)); ("A", (3, 4))]
           [] ["B"] ["A"] "A" "B");
    try reflexivity; try discriminate.
  - intros t [<-|[<-|[]]]; simpl; auto.
  - intros t [<-|[<-|[]]]; simpl; auto.
Defined.

End CompareTagsVerdicts.

(** ** compare_segments as a relation *)

Section SegmentRelation.

Lemma same_stream_trans :
  forall a b c,
    Nat.min (length a) (length c) <= length b ->
    Forall same_stream (combine a b) -> Forall same_stream (combine b c) ->
    Forall same_stream (combine a c).
Proof.
  induction a as [|x a IH]; intros b c Hlen Hab Hbc; simpl; [constructor|].
  destruct c as [|z c]; [constructor|].
  destruct b as [|y b]; [simpl in Hlen; lia|].
  simpl in Hab, Hbc, Hlen. inversion Hab; subst. inversion Hbc; subst.
  constructor.
  - unfold same_stream in *. simpl in *. congruence.
  - apply (IH b c); auto. lia.
Qed.

Lemma same_stream_swap (a b : list string) :
  Forall same_stream (combine a b) -> Forall same_stream (combine b a).
Proof.
  revert b; induction a as [|x a IH]; intros [|y b]; simpl; intros H;
    try constructor; inversion H; subst.
  - unfold same_stream in *. simpl in *. congruence.
  - now apply IH.
Qed.

(** X10: success of [compare_segments] is reflexive and symmetric, and it is
    transitive through a middle list that is not shorter than both others;
    through a shorter one it is not, since unpaired segments are skipped. *)
Theorem compare_segments_equivalence (a b c : list string) :
  compare_segments a a = Return tt
  /\ (compare_segments a b = Return tt <-> compare_segments b a = Return tt)
  /\ (Nat.min (length a) (length c) <= length b ->
      compare_segments a b = Return tt -> compare_segments b c = Return tt ->
      compare_segments a c = Return tt)
  /\ (compare_segments ["x"] [] = Return tt
      /\ compare_segments [] ["y"] = Return tt
      /\ compare_segments ["x"] ["y"]
         = raise_value (ContentModified "x" "y")).
Proof.
  unfold compare_segments. split; [|split; [|split]].
  - apply compare_pairs_ok. induction a as [|x a IH]; simpl; constructor; auto.
    reflexivity.
  - rewrite !compare_pairs_ok. split; apply same_stream_swap.
  - rewrite !compare_pairs_ok. now apply same_stream_trans.
  - repeat split.
Qed.

Lemma compare_segments_equivalence_witness :
  compare_segments ["x = 1;"; "y"] ["x=1;"] = Return tt.
Proof.
  refine (proj1 (proj2 (proj2 (compare_segments_equivalence
            ["x = 1;"; "y"] ["x =1 ;"; "y "; "z"] ["x=1;"]))) _ _ _);
    [simpl; lia | reflexivity | reflexivity].
Defined.

Lemma sub_spaces_app (x y : string) :
  Re.sub_spaces (x ++ y) = Re.sub_spaces x ++ Re.sub_spaces y.
Proof.
  induction x as [|c x IH]; simpl; [reflexivity|].
  destruct (Py.is_space c); simpl; now rewrite IH.
Qed.

Lemma sub_spaces_blank (s : string) :
  string_forall Py.is_space s = true -> Re.sub_spaces s = "".
Proof.
  induction s as [|c s IH]; simpl; [reflexivity|].
  intros H. apply andb_true_iff in H as [-> H]. auto.
Qed.

Lemma concat_empty_cons (x : string) (l : list string) :
  String.concat "" (x :: l) = x ++ String.concat "" l.
Proof. destruct l; simpl; [now rewrite append_nil_r | reflexivity]. Qed.

Lemma concat_empty_app (l1 l2 : list string) :
  String.concat "" (l1 ++ l2)
  = String.concat "" l1 ++ String.concat "" l2.
Proof.
  induction l1 as [|x l1 IH]; [reflexivity|].
  change ((x :: l1) ++ l2)%list with (x :: (l1 ++ l2))%list.
  now rewrite !concat_empty_cons, IH, append_assoc.
Qed.

Lemma sub_spaces_join (g : list string) :
  Re.sub_spaces (Py.join g) = String.concat "" (map Re.sub_spaces g).
Proof.
  unfold Py.join. induction g as [|x g IH]; [reflexivity|].
  destruct g as [|y g]; [reflexivity|].
  change (String.concat Py.nl (x :: y :: g))
    with (x ++ Py.nl ++ String.concat Py.nl (y :: g)).
  rewrite !sub_spaces_app, IH.
  change (map Re.sub_spaces (x :: y :: g))
    with (Re.sub_spaces x :: map Re.sub_spaces (y :: g)).
  now rewrite concat_empty_cons.
Qed.

Lemma joined_segments_agree (g g' : list string) :
  compare_segments [Py.join g] [Py.join g'] = Return tt
  <-> String.concat "" (map Re.sub_spaces g)
      = String.concat "" (map Re.sub_spaces g').
Proof.
  unfold compare_segments. rewrite compare_pairs_ok. simpl.
  rewrite <- !sub_spaces_join. split.
  - now inversion 1.
  - intros H. constructor; [exact H | constructor].
Qed.

(** X11: for segments given by their lines, [compare_segments] looks at
    nothing but the non-whitespace characters of the lines, in order: where
    the lines are broken makes no difference. *)
Theorem compare_segments_ignores_line_breaks (g g' : list string) :
  compare_segments [Py.join g] [Py.join g'] = Return tt
  <-> String.concat "" (map Re.sub_spaces g)
      = String.concat "" (map Re.sub_spaces g').
Proof. apply joined_segments_agree. Qed.

(** X12: a line of whitespace only, inserted anywhere in a segment, leaves
    [compare_segments] satisfied; so does a change of the whitespace each
    line starts with. *)
Theorem compare_segments_tolerates_blank_lines
  (g1 g2 : list string) (blank : string) :
  string_forall Py.is_space blank = true ->
  compare_segments [Py.join (g1 ++ g2)] [Py.join (g1 ++ blank :: g2)]
  = Return tt
  /\ compare_segments [Py.join g1] [Py.join (map (append blank) g1)]
     = Return tt.
Proof.
  intros B. split; apply joined_segments_agree.
  - rewrite !map_app, !concat_empty_app. simpl map.
    now rewrite concat_empty_cons, (sub_spaces_blank _ B).
  - rewrite map_map. f_equal. apply map_ext. intros x.
    now rewrite sub_spaces_app, (sub_spaces_blank _ B).
Qed.

Lemma compare_segments_tolerates_blank_lines_witness :
  compare_segments [Py.join (["a"] ++ ["b"])] [Py.join (["a"] ++ "  " :: ["b"])]
  = Return tt
  /\ compare_segments [Py.join ["a"]] [Py.join (map (append "  ") ["a"])]
     = Return tt.
Proof.
  apply compare_segments_tolerates_blank_lines. reflexivity.
Defined.

End SegmentRelation.

(** ** check_filenames *)

Section Filenames.

Lemma string_length_app (a b : string) :
  String.length (a ++ b) = String.length a + String.length b.
Proof. induction a as [|c a IH]; simpl; [reflexivity | now rewrite IH]. Qed.

Lemma substring_zero (s : string) : substring 0 0 s = "".
Proof. now destruct s. Qed.

Lemma substring_all (s : string) : substring 0 (String.length s) s = s.
Proof. induction s as [|c s IH]; simpl; [reflexivity | now rewrite IH]. Qed.

Lemma substring_stem (a b : string) :
  substring 0 (String.length a) (a ++ b) = a.
Proof.
  induction a as [|c a IH]; simpl; [apply substring_zero | now rewrite IH].
Qed.

Lemma substring_suffix (a b : string) :
  substring (String.length a) (String.length b) (a ++ b) = b.
Proof. induction a as [|c a IH]; simpl; [apply substring_all | exact IH]. Qed.

Lemma substring_split (s : string) :
  forall n, n <= String.length s ->
            s = substring 0 n s ++ substring n (String.length s - n) s.
Proof.
  induction s as [|c s IH]; intros [|n]; simpl; intros H; try reflexivity.
  - now rewrite substring_all.
  - f_equal. apply IH. lia.
Qed.

Lemma endswith_iff (s suffix : string) :
  Py.endswith s suffix = true <-> exists stem, s = stem ++ suffix.
Proof.
  unfold Py.endswith. rewrite andb_true_iff, Nat.leb_le, String.eqb_eq. split.
  - intros [Hlen E].
    exists (substring 0 (String.length s - String.length suffix) s).
    rewrite (substring_split s (String.length s - String.length suffix))
      at 1 by lia.
    f_equal.
    replace (String.length s - (String.length s - String.length suffix))
      with (String.length suffix) by lia.
    exact E.
  - intros (stem & ->). rewrite string_length_app. split; [lia|].
    replace (String.length stem + String.length suffix - String.length suffix)
      with (String.length stem) by lia.
    apply substring_suffix.
Qed.

(** The outcome of [check_filenames] on an assignment file with the
    required suffix. *)
Lemma check_filenames_stem (no_filename_check : bool) (stem s : string) :
  check_filenames no_filename_check (stem ++ "-assignment.dfy") s
  = if s =? stem ++ "-submission.dfy" then Return []
    else if no_filename_check
         then Return ["WARNING: The submission file must be named '"
                        ++ (stem ++ "-submission.dfy") ++ "'."]
         else raise_value (SubmissionName (stem ++ "-submission.dfy")).
Proof.
  unfold check_filenames.
  assert (E : Py.endswith (stem ++ "-assignment.dfy") "-assignment.dfy" = true)
    by (apply endswith_iff; eauto).
  rewrite E. cbn [negb].
  rewrite string_length_app.
  replace (String.length stem + String.length "-assignment.dfy" - 15)
    with (String.length stem) by (simpl; lia).
  now rewrite substring_stem.
Qed.

(** X13: [check_filenames] raises when the assignment file does not end
    with "-assignment.dfy", in both modes.  For an assignment file
    [stem-assignment.dfy] it returns silently when the submission file is
    [stem-submission.dfy]; for another submission file it raises, naming the
    expected file, in strict mode, and returns after printing the warning in
    lenient mode. *)
Theorem check_filenames_cases (no_filename_check : bool) (a s : string) :
  ((forall stem, a <> stem ++ "-assignment.dfy") ->
   check_filenames no_filename_check a s = raise_value AssignmentSuffix)
  /\ (forall stem,
         a = stem ++ "-assignment.dfy" ->
         check_filenames no_filename_check a s
         = if s =? stem ++ "-submission.dfy" then Return []
           else if no_filename_check
                then Return ["WARNING: The submission file must be named '"
                               ++ (stem ++ "-submission.dfy") ++ "'."]
                else raise_value (SubmissionName (stem ++ "-submission.dfy"))).
Proof.
  split.
  - intros No. unfold check_filenames.
    destruct (Py.endswith a "-assignment.dfy") eqn:E; [|reflexivity].
    apply endswith_iff in E as (stem & ->). now destruct (No stem).
  - intros stem ->. apply check_filenames_stem.
Qed.

Lemma check_filenames_cases_witness :
  check_filenames true "hw1-assignment.dfy" "hw1.dfy"
  = Return ["WARNING: The submission file must be named 'hw1-submission.dfy'."].
Proof.
  refine (proj2 (check_filenames_cases true "hw1-assignment.dfy" "hw1.dfy")
            "hw1" _).
  reflexivity.
Defined.

(** X14: in strict mode [check_filenames] returns exactly for a pair
    [stem-assignment.dfy], [stem-submission.dfy] with the same stem, and
    then prints nothing. *)
Theorem check_filenames_strict_iff (a s : string) (printed : list string) :
  check_filenames false a s = Return printed
  <-> printed = []
      /\ exists stem, a = stem ++ "-assignment.dfy"
                      /\ s = stem ++ "-submission.dfy".
Proof.
  split.
  - intros H. destruct (Py.endswith a "-assignment.dfy") eqn:E.
    + apply endswith_iff in E as (stem & ->).
      rewrite check_filenames_stem in H.
      destruct (String.eqb_spec s (stem ++ "-submission.dfy")) as [->|N];
        [|discriminate].
      injection H as <-. split; [reflexivity|]. now exists stem.
    + unfold check_filenames in H. rewrite E in H. discriminate.
  - intros (-> & stem & -> & ->).
    now rewrite check_filenames_stem, String.eqb_refl.
Qed.

End Filenames.

(** ** When check_submission accepts *)

Section Acceptance.

Lemma try_stage_accepted {A} (body : result A) (rest : A -> result string) :
  try_stage body rest = Return ACCEPTED
  <-> exists a, body = Return a /\ rest a = Return ACCEPTED.
Proof.
  split.
  - destruct body as [a|[e| |]]; simpl; try discriminate. eauto.
  - intros (a & -> & H). exact H.
Qed.

Lemma accepted_iff (no_filename_check : bool)
  (read_text : string -> result string)
  (assignment_file submission_file assignment_text submission_text : string) :
  read_text assignment_file = Return assignment_text ->
  read_text submission_file = Return submission_text ->
  check_submission no_filename_check read_text assignment_file submission_file
  = Return ACCEPTED
  <-> (exists printed,
          check_filenames no_filename_check assignment_file submission_file
          = Return printed)
      /\ exists assignment_tags submission_tags,
          extract_tags assignment_text = Return assignment_tags
          /\ extract_tags submission_text = Return submission_tags
          /\ map fst assignment_tags = map fst submission_tags
          /\ Forall same_stream
               (combine
                  (extract_original_segments assignment_text assignment_tags)
                  (extract_original_segments submission_text submission_tags)).
Proof.
  intros Ra Rs. unfold check_submission. rewrite try_stage_accepted. split.
  - intros (printed & F & H). rewrite Ra, Rs in H. cbn [bind] in H.
    apply try_stage_accepted in H as ([ta ts] & E & H).
    destruct (extract_tags assignment_text) as [ta'|] eqn:Ea; [|discriminate].
    destruct (extract_tags submission_text) as [ts'|] eqn:Es; [|discriminate].
    cbn [bind] in E. injection E as -> ->.
    apply try_stage_accepted in H as ([] & C & H).
    apply try_stage_accepted in H as ([] & S & _).
    split; [eauto|]. exists ta, ts. repeat split; auto.
    + apply compare_tags_ok; [| |exact C].
      * apply (wf_nodup (markers assignment_text)).
        now apply extract_tags_well_formed.
      * apply (wf_nodup (markers submission_text)).
        now apply extract_tags_well_formed.
    + now apply compare_pairs_ok.
  - intros ((printed & F) & ta & ts & Ea & Es & K & S).
    exists printed. split; [exact F|]. rewrite Ra, Rs. cbn [bind].
    rewrite Ea, Es. cbn [bind try_stage].
    assert (C : compare_tags ta ts = Return tt).
    { unfold compare_tags. rewrite K, filter_none.
      - apply check_order_same.
      - intros t Ht. apply list_mem_in in Ht. now rewrite Ht. }
    rewrite C. cbn [try_stage].
    assert (S' : compare_segments (extract_original_segments assignment_text ta)
                   (extract_original_segments submission_text ts) = Return tt)
      by now apply compare_pairs_ok.
    now rewrite S'.
Qed.

(** X15: with both files readable, [check_submission] answers ACCEPTED
    exactly when the filename check returns, both documents yield a map, the
    two maps list the same tags in the same order, and every positionally
    paired couple of segments has the same characters apart from
    whitespace. *)
Theorem check_submission_accepts_iff (no_filename_check : bool)
  (read_text : string -> result string)
  (assignment_file submission_file assignment_text submission_text : string) :
  read_text assignment_file = Return assignment_text ->
  read_text submission_file = Return submission_text ->
  check_submission no_filename_check read_text assignment_file submission_file
  = Return ACCEPTED
  <-> (exists printed,
          check_filenames no_filename_check assignment_file submission_file
          = Return printed)
      /\ exists assignment_tags submission_tags,
          extract_tags assignment_text = Return assignment_tags
          /\ extract_tags submission_text = Return submission_tags
          /\ map fst assignment_tags = map fst submission_tags
          /\ Forall same_stream
               (combine
                  (extract_original_segments assignment_text assignment_tags)
                  (extract_original_segments submission_text submission_tags)).
Proof. apply accepted_iff. Qed.

Lemma check_submission_accepts_iff_witness :
  check_submission false homework_files
    "hw1-assignment.dfy" "hw1-submission.dfy" = Return ACCEPTED
  <-> (exists printed,
          check_filenames false "hw1-assignment.dfy" "hw1-submission.dfy"
          = Return printed)
      /\ exists assignment_tags submission_tags,
          extract_tags merge_template = Return assignment_tags
          /\ extract_tags merge_submission = Return submission_tags
          /\ map fst assignment_tags = map fst submission_tags
          /\ Forall same_stream
               (combine
                  (extract_original_segments merge_template assignment_tags)
                  (extract_original_segments merge_submission submission_tags)).
Proof.
  apply (check_submission_accepts_iff false homework_files
           "hw1-assignment.dfy" "hw1-submission.dfy"); reflexivity.
Defined.

(** X16: a document from which [extract_tags] returns a map is accepted as a
    submission for itself, whenever the filename check returns. *)
Theorem check_submission_accepts_unmodified (no_filename_check : bool)
  (read_text : string -> result string)
  (assignment_file submission_file text : string)
  (tags : TagMap) (printed : list string) :
  check_filenames no_filename_check assignment_file submission_file
  = Return printed ->
  read_text assignment_file = Return text ->
  read_text submission_file = Return text ->
  extract_tags text = Return tags ->
  check_submission no_filename_check read_text assignment_file submission_file
  = Return ACCEPTED.
Proof.
  intros F Ra Rs E. apply (accepted_iff _ _ _ _ text text Ra Rs).
  split; [eauto|]. exists tags, tags. repeat split; auto.
  induction (extract_original_segments text tags) as [|x l IH]; simpl;
    constructor; auto. reflexivity.
Qed.

Lemma check_submission_accepts_unmodified_witness :
  check_submission false (fun _ => Return tpl)
    "hw1-assignment.dfy" "hw1-submission.dfy" = Return ACCEPTED.
Proof.
  apply (check_submission_accepts_unmodified false (fun _ => Return tpl)
           "hw1-assignment.dfy" "hw1-submission.dfy" tpl [("a", (2, 4))] []);
    reflexivity.
Defined.

End Acceptance.

(** ** What insert_submission_tags keeps of the template *)

Section MergeFrame.

Lemma slice_split {A} (l : list A) lo mid hi :
  lo <= mid -> mid <= hi ->
  Py.slice l lo hi = (Py.slice l lo mid ++ Py.slice l mid hi)%list.
Proof.
  intros H1 H2. apply (app_inv_tail (skipn hi l)).
  rewrite <- app_assoc, !slice_skipn by lia. reflexivity.
Qed.

Lemma slice_one {A} (l : list A) :
  forall i x, nth_error l i = Some x -> Py.slice l i (S i) = [x].
Proof.
  unfold Py.slice. intros i x. replace (S i - i) with 1 by lia.
  revert i x. induction l as [|y l IH]; intros [|i] x; simpl;
    try discriminate.
  - now intros [= ->].
  - apply IH.
Qed.

Lemma getitem_in_range (l : list string) i :
  i < length l -> exists x, getitem l i = Return x /\ nth_error l i = Some x.
Proof.
  intros H. unfold getitem.
  destruct (nth_error l i) as [x|] eqn:E; [eauto|].
  apply nth_error_None in E. lia.
Qed.

Lemma getitem_pred_pos (l : list string) (e : nat) :
  0 < e -> getitem_pred l e = getitem l (e - 1).
Proof.
  destruct e as [|i]; [lia|]. intros _. simpl.
  now replace (i - 0) with i by lia.
Qed.

Lemma chained_map_order (text : string) (tags : TagMap) :
  well_formed (markers text) tags ->
  chained (length (Py.splitlines text)) 0 (map snd tags)
  /\ spans_of tags = map snd tags.
Proof.
  intros W.
  assert (S : spans_of tags = map snd tags).
  { unfold spans_of. apply sorted_fixed. apply StronglySorted_map.
    exact (well_formed_line_order _ _ W). }
  split; [|exact S]. rewrite <- S. now apply chained_of_well_formed.
Qed.

Lemma insert_loop_frames (alines slines : list string) (stags : TagMap) :
  forall atags acc prev,
    chained (length alines) prev (map snd atags) ->
    (forall t, In t (map fst atags) -> dict_get stags t <> None) ->
    exists mids,
      length mids = length atags
      /\ insert_loop alines slines stags acc prev atags
         = Return (acc ++ weave (gaps_loop alines prev (map snd atags))
                                (frame_spans alines (map snd atags) mids))%list.
Proof.
  induction atags as [|[t [b e]] r IH]; intros acc prev C Present; simpl.
  - exists []. split; reflexivity.
  - simpl in C. destruct C as (H1 & H2 & H3).
    pose proof (chained_le _ _ _ H3) as He.
    destruct (dict_get stags t) as [[sb se]|] eqn:G;
      [|exfalso; apply (Present t); simpl; auto].
    destruct (getitem_in_range alines b) as (lb & Gb & Nb); [lia|].
    destruct (getitem_in_range alines (e - 1)) as (le & Ge & Ne); [lia|].
    rewrite Gb. cbn [bind].
    rewrite (getitem_pred_pos alines e) by lia. rewrite Ge. cbn [bind].
    destruct (IH ((((acc ++ Py.slice alines prev b) ++ [lb])
                    ++ Py.slice_to_pred slines (sb + 1) se) ++ [le])%list e H3)
      as (mids & L & ->).
    { intros t' Ht'. apply Present. simpl. auto. }
    exists (([lb] ++ Py.slice_to_pred slines (sb + 1) se)%list :: mids).
    split; [simpl; now rewrite L|]. f_equal. simpl frame_spans.
    rewrite (slice_split alines prev (b - 1) b) by lia.
    replace (Py.slice alines (e - 1) e) with [le].
    + repeat rewrite <- app_assoc. reflexivity.
    + symmetry. replace e with (S (e - 1)) at 2 by lia. now apply slice_one.
Qed.

(** X17: on the map [extract_tags] returns for the assignment, and a
    submission map that has all its tags, [insert_submission_tags] raises
    nothing; its result is the template with every line outside the spans
    in place and, for each span, the BEGIN line and the END line of the
    template around the lines the merge puts between them. *)
Theorem insert_submission_tags_keeps_template
  (assignment_text submission_text : string)
  (assignment_tags submission_tags : TagMap) :
  extract_tags assignment_text = Return assignment_tags ->
  (forall t, In t (map fst assignment_tags) ->
             dict_get submission_tags t <> None) ->
  exists mids,
    length mids = length assignment_tags
    /\ insert_submission_tags assignment_text submission_text
         assignment_tags submission_tags
       = Return (Py.join
                   (weave (gaps assignment_text assignment_tags)
                          (frame_spans (Py.splitlines assignment_text)
                                       (map snd assignment_tags) mids))).
Proof.
  intros E Present. apply extract_tags_well_formed in E.
  destruct (chained_map_order _ _ E) as [C S].
  destruct (insert_loop_frames (Py.splitlines assignment_text)
              (Py.splitlines submission_text) submission_tags
              assignment_tags [] 0 C Present) as (mids & L & R).
  exists mids. split; [exact L|].
  unfold insert_submission_tags. rewrite R. cbn [bind].
  unfold gaps. now rewrite S.
Qed.

Lemma insert_submission_tags_keeps_template_witness :
  exists mids,
    length mids = length [("a", (2, 4))]
    /\ insert_submission_tags tpl merge_submission
         [("a", (2, 4))] [("a", (1, 4))]
       = Return (Py.join
                   (weave (gaps tpl [("a", (2, 4))])
                          (frame_spans (Py.splitlines tpl)
                                       (map snd [("a", (2, 4))]) mids))).
Proof.
  apply insert_submission_tags_keeps_template; [reflexivity|].
  intros t [<-|[]]. discriminate.
Defined.

Example insert_submission_tags_end_line_zero :
  insert_submission_tags tpl merge_submission [("a", (2, 4))] [("a", (1, 0))]
  = Return (unlines ["header"; "// BEGIN-TODO(a)"; "TODO"; "y";
                     "// END-TODO(a)"; "footer"]).
Proof. reflexivity. Qed.




End MergeFrame.

(** ** The payload of a span does not matter *)

Section PayloadFrame.

Lemma gaps_loop_ext_inside (lines lines' : list string) (P : nat -> Prop)
  spans :
  (forall j, ~ P (S j) -> nth_error lines j = nth_error lines' j) ->
  forall prev,
    chained (length lines) prev spans ->
    (forall n, prev < n -> P n ->
               exists b e, In (b, e) spans /\ b <= n /\ n <= e) ->
    gaps_loop lines prev spans = gaps_loop lines' prev spans.
Proof.
  intros Agree.
  induction spans as [|[b e] r IH]; intros prev H Cover; simpl.
  - f_equal. apply skipn_ext. intros j Hj. apply Agree. intros Pn.
    destruct (Cover (S j)) as (b & e & [] & _); [lia | exact Pn].
  - destruct H as (H1 & H2 & H3). f_equal.
    + apply slice_ext. intros j Hj. apply Agree. intros Pn.
      destruct (Cover (S j)) as (b' & e' & Hs & Hb & He); [lia | exact Pn |].
      destruct Hs as [[= <- <-]|Hs]; [lia|].
      destruct (chained_in _ _ _ _ _ H3 Hs) as (? & ? & ?). lia.
    + apply IH; [exact H3|].
      intros n Hn Pn. destruct (Cover n) as (b' & e' & Hs & Hb & He);
        [lia | exact Pn |].
      destruct Hs as [[= <- <-]|Hs]; [lia|]. eauto.
Qed.

Lemma same_outside_payload_search (tags : TagMap) (lines lines' : list string) :
  same_outside_payload tags lines lines' ->
  map Re.search lines = map Re.search lines'.
Proof.
  intros [Len Rel]. apply nth_error_ext. intros j.
  rewrite !nth_error_map.
  destruct (nth_error lines j) as [l|] eqn:E, (nth_error lines' j) as [l'|] eqn:E';
    simpl; try reflexivity.
  - destruct (Rel j l l' E E') as [->|(-> & -> & _)]; reflexivity.
  - apply nth_error_None in E'.
    assert (j < length lines) by (apply nth_error_Some; congruence). lia.
  - apply nth_error_None in E.
    assert (j < length lines') by (apply nth_error_Some; congruence). lia.
Qed.

(** X19: replacing lines strictly inside the spans of a document by other
    lines, as many and none of them a marker, changes neither the map
    [extract_tags] returns nor the segments [extract_original_segments]
    returns. *)
Theorem payload_lines_do_not_matter (text text' : string) (tags : TagMap) :
  extract_tags text = Return tags ->
  same_outside_payload tags (Py.splitlines text) (Py.splitlines text') ->
  extract_tags text' = Return tags
  /\ extract_original_segments text' tags
     = extract_original_segments text tags.
Proof.
  intros E Same.
  pose proof (same_outside_payload_search _ _ _ Same) as Srch.
  assert (E' : extract_tags text' = Return tags).
  { rewrite <- E. unfold extract_tags. now rewrite (scan_lines_ext _ _ Srch). }
  split; [exact E'|].
  pose proof (extract_tags_well_formed _ _ E) as W.
  pose proof (extract_tags_well_formed _ _ E') as W'.
  rewrite (segments_are_gaps _ _ W), (segments_are_gaps _ _ W').
  f_equal. f_equal. unfold gaps. symmetry.
  destruct Same as [Len Rel].
  apply (gaps_loop_ext_inside _ _
           (fun n => exists b e, In (b, e) (spans_of tags) /\ b <= n /\ n <= e)).
  - intros j Out.
    destruct (nth_error (Py.splitlines text) j) as [l|] eqn:N,
             (nth_error (Py.splitlines text') j) as [l'|] eqn:N';
      try reflexivity.
    + destruct (Rel j l l' N N') as [->|(_ & _ & t & b & e & Hin & Hb & He)];
        [reflexivity|].
      exfalso. apply Out. exists b, e. split; [|lia].
      apply sorted_in, in_map_iff. now exists (t, (b, e)).
    + apply nth_error_None in N'.
      assert (j < length (Py.splitlines text))
        by (apply nth_error_Some; congruence). lia.
    + apply nth_error_None in N.
      assert (j < length (Py.splitlines text'))
        by (apply nth_error_Some; congruence). lia.
  - now apply chained_of_well_formed.
  - intros n _ Pn. exact Pn.
Qed.

Lemma payload_lines_do_not_matter_witness :
  extract_tags (unlines ["header"; "// BEGIN-TODO(a)"; "x := 1;";
                         "// END-TODO(a)"; "footer"])
  = Return [("a", (2, 4))]
  /\ extract_original_segments
       (unlines ["header"; "// BEGIN-TODO(a)"; "x := 1;";
                 "// END-TODO(a)"; "footer"]) [("a", (2, 4))]
     = extract_original_segments tpl [("a", (2, 4))].
Proof.
  refine (payload_lines_do_not_matter tpl
            (unlines ["header"; "// BEGIN-TODO(a)"; "x := 1;";
                      "// END-TODO(a)"; "footer"])
            [("a", (2, 4))] eq_refl _).
  assert (L : Py.splitlines tpl
              = ["header"; "// BEGIN-TODO(a)"; "TODO"; "// END-TODO(a)";
                 "footer"]) by reflexivity.
  assert (L' : Py.splitlines
                 (unlines ["header"; "// BEGIN-TODO(a)"; "x := 1;";
                           "// END-TODO(a)"; "footer"])
               = ["header"; "// BEGIN-TODO(a)"; "x := 1;"; "// END-TODO(a)";
                  "footer"]) by reflexivity.
  unfold same_outside_payload. rewrite L, L'.
  split; [reflexivity|]. intros j l l' H H'.
  destruct j as [|j]; [injection H as <-; injection H' as <-; now left|].
  destruct j as [|j]; [injection H as <-; injection H' as <-; now left|].
  destruct j as [|j].
  { injection H as <-. injection H' as <-. right.
    split; [reflexivity|]. split; [reflexivity|].
    exists "a", 2, 4. split; [now left | split; lia]. }
  destruct j as [|j]; [injection H as <-; injection H' as <-; now left|].
  destruct j as [|j]; [injection H as <-; injection H' as <-; now left|].
  destruct j; discriminate.
Defined.

End PayloadFrame.

(** ** What an accepted submission guarantees *)

Section Guarantee.

Lemma paired_gaps_agree (l l' : list (list string)) :
  map nonempty l = map nonempty l' ->
  Forall same_stream
    (combine (map Py.join (filter nonempty l))
             (map Py.join (filter nonempty l'))) ->
  Forall2 (fun g g' => same_stream (Py.join g, Py.join g')) l l'.
Proof.
  revert l'; induction l as [|g l IH]; intros [|g' l']; simpl;
    try discriminate; [constructor|].
  intros [= Hne Hrest] F.
  destruct g as [|x g], g' as [|x' g']; simpl in Hne; try discriminate.
  - constructor; [reflexivity | now apply IH].
  - simpl in F. inversion F; subst. constructor; [assumption | now apply IH].
Qed.

(** X20: an accepted submission keeps the protected text wherever the two
    documents have text at the same places: when each gap of the assignment
    is empty exactly when the gap of the submission at the same position
    is, every gap of the assignment has the same non-whitespace characters
    as the gap of the submission at its position. *)
Theorem accepted_submission_keeps_gaps (no_filename_check : bool)
  (read_text : string -> result string)
  (assignment_file submission_file assignment_text submission_text : string) :
  read_text assignment_file = Return assignment_text ->
  read_text submission_file = Return submission_text ->
  check_submission no_filename_check read_text assignment_file submission_file
  = Return ACCEPTED ->
  exists assignment_tags submission_tags,
    extract_tags assignment_text = Return assignment_tags
    /\ extract_tags submission_text = Return submission_tags
    /\ map fst assignment_tags = map fst submission_tags
    /\ (map nonempty (gaps assignment_text assignment_tags)
        = map nonempty (gaps submission_text submission_tags) ->
        Forall2 (fun g g' => same_stream (Py.join g, Py.join g'))
                (gaps assignment_text assignment_tags)
                (gaps submission_text submission_tags)).
Proof.
  intros Ra Rs H.
  apply (accepted_iff _ _ _ _ _ _ Ra Rs) in H
    as (_ & ta & ts & Ea & Es & K & F).
  exists ta, ts. repeat split; auto. intros Shape.
  apply paired_gaps_agree; [exact Shape|].
  rewrite <- (segments_are_gaps _ _ (extract_tags_well_formed _ _ Ea)).
  now rewrite <- (segments_are_gaps _ _ (extract_tags_well_formed _ _ Es)).
Qed.

Lemma accepted_submission_keeps_gaps_witness :
  gaps tpl [("a", (2, 4))] = [["header"]; ["footer"]]
  /\ gaps tpl_submission [("a", (2, 5))] = [["header"]; ["  footer"]]
  /\ Forall2 (fun g g' => same_stream (Py.join g, Py.join g'))
             (gaps tpl [("a", (2, 4))])
             (gaps tpl_submission [("a", (2, 5))]).
Proof.
  split; [reflexivity|]. split; [reflexivity|].
  destruct (accepted_submission_keeps_gaps false tpl_files
              "hw2-assignment.dfy" "hw2-submission.dfy" tpl tpl_submission
              eq_refl eq_refl eq_refl)
    as (ta & ts & Ea & Es & _ & Agree).
  assert (Ta : extract_tags tpl = Return [("a", (2, 4))]) by reflexivity.
  assert (Ts : extract_tags tpl_submission = Return [("a", (2, 5))])
    by reflexivity.
  rewrite Ta in Ea. rewrite Ts in Es.
  injection Ea as <-. injection Es as <-.
  apply Agree. reflexivity.
Defined.

(** X21: the lenient mode skips the check of the submission's name and
    nothing else: for an assignment file [stem-assignment.dfy] and the same
    two texts, the verdict for any submission file in lenient mode is the
    verdict for [stem-submission.dfy] in strict mode. *)
Theorem lenient_mode_skips_name_check
  (read_text read_text' : string -> result string)
  (stem submission_file assignment_text submission_text : string) :
  read_text (stem ++ "-assignment.dfy") = Return assignment_text ->
  read_text submission_file = Return submission_text ->
  read_text' (stem ++ "-assignment.dfy") = Return assignment_text ->
  read_text' (stem ++ "-submission.dfy") = Return submission_text ->
  check_submission true read_text (stem ++ "-assignment.dfy") submission_file
  = check_submission false read_text' (stem ++ "-assignment.dfy")
      (stem ++ "-submission.dfy").
Proof.
  intros Ra Rs Ra' Rs'. unfold check_submission.
  rewrite !check_filenames_stem, String.eqb_refl.
  destruct (submission_file =? stem ++ "-submission.dfy");
    cbn [try_stage]; now rewrite Ra, Rs, Ra', Rs'.
Qed.

Lemma lenient_mode_skips_name_check_witness :
  check_submission true homework_files ("hw1" ++ "-assignment.dfy")
    "old-submission.dfy"
  = check_submission false homework_files ("hw1" ++ "-assignment.dfy")
      ("hw1" ++ "-submission.dfy").
Proof.
  apply (lenient_mode_skips_name_check homework_files homework_files "hw1"
           "old-submission.dfy" merge_template merge_submission);
    reflexivity.
Defined.

End Guarantee.
